(** * BI_Assistant: the question-answering pipeline of [chatbot/AdvancedAppina.py]

    A shallow embedding of the six classes of the script
    ([SchemaDescriber], [DatabaseConnector], [QuestionClassifier],
    [SchemaVerifier], [NonSeriousAssistant], [SQLAssistant], [ChatApp]) and
    the properties of the routing, caching and failure policy.

    Python text is a sequence of code points; the hosted model, the prompt
    templating, the database and the description file are the environment.
    A method that calls out becomes a computation over an explicit [world]
    which keeps its state when an exception is raised, as Python does. *)

From Stdlib Require Import String Ascii.
From Stdlib Require Import List NArith Bool Arith Lia.
Import ListNotations.

Set Implicit Arguments.

(* ===================================================================== *)
(** ** Python strings *)
(* ===================================================================== *)

Module PyStr.

(** A [str] is its list of Unicode code points. *)
Definition str := list N.

(** An ASCII literal of the source. *)
Definition lit (s : string) : str := map N_of_ascii (list_ascii_of_string s).

Fixpoint eqb (a b : str) : bool :=
  match a, b with
  | [], [] => true
  | x :: a', y :: b' => N.eqb x y && eqb a' b'
  | _, _ => false
  end.

(** Truth value of a string: [if s:]. *)
Definition truthy (s : str) : bool :=
  match s with [] => false | _ :: _ => true end.

(** [str.isspace] on one code point: the white-space table of CPython. *)
Definition isspace (c : N) : bool :=
  ((9 <=? c) && (c <=? 13) || (28 <=? c) && (c <=? 32)
   || (c =? 133) || (c =? 160) || (c =? 5760)
   || (8192 <=? c) && (c <=? 8202)
   || (c =? 8232) || (c =? 8233) || (c =? 8239) || (c =? 8287)
   || (c =? 12288))%N.

Fixpoint lstrip (s : str) : str :=
  match s with
  | c :: s' => if isspace c then lstrip s' else s
  | [] => []
  end.

Definition rstrip (s : str) : str := rev (lstrip (rev s)).

(** [s.strip()] *)
Definition strip (s : str) : str := rstrip (lstrip s).

Definition is_ascii (c : N) : bool := (c <? 128)%N.

Definition lower_ascii (c : N) : N :=
  if ((65 <=? c) && (c <=? 90))%N then (c + 32)%N else c.

(** [s.lower()].  On a string of ASCII code points it maps ['A'..'Z'] to
    ['a'..'z'] and nothing else; on any other string it is the Unicode case
    mapping of the interpreter, [unicode_lower], which the program does not
    define. *)
Definition lower (unicode_lower : str -> str) (s : str) : str :=
  if forallb is_ascii s then map lower_ascii s else unicode_lower s.

(** ["\n" + "-" * 80 + "\n"] *)
Definition separator : str := [10%N] ++ repeat 45%N 80 ++ [10%N].

(** Text files opened without [newline=] translate line ends.  On [read]
    every ["\r\n"] and every other ["\r"] comes back as ["\n"]. *)
Fixpoint universal_newlines (s : str) : str :=
  match s with
  | [] => []
  | c :: s' =>
      if (c =? 13)%N then
        10%N :: match s' with
                | c' :: s'' =>
                    if (c' =? 10)%N then universal_newlines s''
                    else universal_newlines s'
                | [] => []
                end
      else c :: universal_newlines s'
  end.

(** On [write] every ["\n"] goes out as [os.linesep]. *)
Definition write_newlines (linesep : str) (s : str) : str :=
  flat_map (fun c => if (c =? 10)%N then linesep else [c]) s.

(** No carriage return in the text. *)
Definition no_cr (s : str) : bool := forallb (fun c => negb (c =? 13)%N) s.

End PyStr.

Import PyStr.

(* ===================================================================== *)
(** ** Messages, prompts, events and the world *)
(* ===================================================================== *)

(** [langchain.schema.AIMessage] and [HumanMessage]. *)
Inductive message :=
| AIMessage (content : str)
| HumanMessage (content : str).

(** The handle that [SQLDatabase.from_uri] returns. *)
Definition db_handle := nat.

(** A value bound to a template variable: text, a list of messages, or a
    Python function object (named by the [def] that made it). *)
Inductive pyval :=
| VStr (s : str)
| VMsgs (l : list message)
| VDb (h : db_handle)
| VFun (name : string).

Definition vars := list (string * pyval).

(** The six templates.  [generate_description] builds its template with an
    f-string, so the schema text is already part of the template when
    [ChatPromptTemplate.from_template] parses it. *)
Inductive template :=
| TDescribe (schema_info : str)
| TClassify
| TVerify
| TNonSerious
| TSql
| TAnswer.

(** The six [ChatGoogleGenerativeAI] clients. *)
Inductive llm_id :=
| LDescriber | LClassifier | LVerifier | LNonSerious | LSql | LAnswer.

(** The components whose invocation the properties count. *)
Inductive component :=
| CDescriber      (* SchemaDescriber.describe_and_save_all *)
| CClassifier     (* QuestionClassifier.classify_question *)
| CVerifier       (* SchemaVerifier.verify_schema_relevance *)
| CNonSerious     (* NonSeriousAssistant.get_non_serious_response *)
| CPipeline.      (* SQLAssistant.generate_response *)

Inductive event :=
| ECall (c : component) (args : vars)   (* the method is entered *)
| EPrompt (t : template) (v : vars)  (* a template is formatted *)
| ELlm (l : llm_id) (prompt : str)   (* [llm.invoke] *)
| ETableInfo (h : db_handle)         (* [db.get_table_info] *)
| EDbRun (h : db_handle) (sql : str) (* [db.run] *)
| EConnect                           (* [SQLDatabase.from_uri] *)
| EStoreAppend (text : str)          (* the file opened in mode "a" *)
| ESleep (seconds : nat)             (* [time.sleep] *)
| EMarkdown (text : str)             (* [st.markdown], [st.write] *)
| EError (text : str)                (* [st.error] *)
| ESuccess (text : str).             (* [st.success] *)

Definition component_eqb (a b : component) : bool :=
  match a, b with
  | CDescriber, CDescriber | CClassifier, CClassifier | CVerifier, CVerifier
  | CNonSerious, CNonSerious | CPipeline, CPipeline => true
  | _, _ => false
  end.

Definition llm_eqb (a b : llm_id) : bool :=
  match a, b with
  | LDescriber, LDescriber | LClassifier, LClassifier | LVerifier, LVerifier
  | LNonSerious, LNonSerious | LSql, LSql | LAnswer, LAnswer => true
  | _, _ => false
  end.

Definition is_call (c : component) (e : event) : bool :=
  match e with ECall c' _ => component_eqb c c' | _ => false end.

Definition is_llm (l : llm_id) (e : event) : bool :=
  match e with ELlm l' _ => llm_eqb l l' | _ => false end.

Definition is_any_llm (e : event) : bool :=
  match e with ELlm _ _ => true | _ => false end.

Definition is_store_append (e : event) : bool :=
  match e with EStoreAppend _ => true | _ => false end.

Definition is_db_run (e : event) : bool :=
  match e with EDbRun _ _ => true | _ => false end.

Definition is_table_info (e : event) : bool :=
  match e with ETableInfo _ => true | _ => false end.

Definition is_sleep (e : event) : bool :=
  match e with ESleep _ => true | _ => false end.

(** How often an event of a kind occurs in a stretch of the trace. *)
Definition count (p : event -> bool) (tr : list event) : nat :=
  length (filter p tr).

(** The Streamlit session state (a key may be absent), the description
    file ([None]: the file does not exist) and the trace of calls made so
    far, newest first. *)
Record world := mkWorld {
  ss_chat_history : option (list message);
  ss_db : option (option db_handle);
  store : option str;
  trace : list event
}.

Definition emit (e : event) (w : world) : world :=
  mkWorld (ss_chat_history w) (ss_db w) (store w) (e :: trace w).

(* ===================================================================== *)
(** ** Computations that may raise *)
(* ===================================================================== *)

(** Where the program runs: [os.linesep] is ["\n"] or ["\r\n"]. *)
Inductive os := Posix | Windows.

Definition os_linesep (p : os) : str :=
  match p with
  | Posix => [10%N]
  | Windows => [13%N; 10%N]
  end.

(** An instance of [Exception]. *)
Inductive exn := Exception (msg : str).

Inductive result (A : Type) :=
| Ok (a : A)
| Raise (e : exn).

Arguments Ok {A} a.
Arguments Raise {A} e.

Definition M (A : Type) := world -> result A * world.

Definition ret {A} (a : A) : M A := fun w => (Ok a, w).

Definition raise {A} (e : exn) : M A := fun w => (Raise e, w).

Definition bind {A B} (m : M A) (f : A -> M B) : M B :=
  fun w =>
    match m w with
    | (Ok a, w') => f a w'
    | (Raise e, w') => (Raise e, w')
    end.

(** [try: body  except Exception as e: handler] *)
Definition try_except {A} (body : M A) (handler : exn -> M A) : M A :=
  fun w =>
    match body w with
    | (Ok a, w') => (Ok a, w')
    | (Raise e, w') => handler e w'
    end.

Definition log_event (e : event) : M unit := fun w => (Ok tt, emit e w).

Declare Scope py_scope.
Delimit Scope py_scope with py.
Notation "x <- m ;; k" := (bind m (fun x => k))
  (at level 61, m at next level, right associativity) : py_scope.
Notation "m ;; k" := (bind m (fun _ => k))
  (at level 61, right associativity) : py_scope.
Local Open Scope py_scope.

(* ===================================================================== *)
(** ** The environment *)
(* ===================================================================== *)

(** What the program calls and does not define.  The [nat] argument is the
    number of calls made before this one, so a reply may differ from one
    call to the next. *)
Record Env := mkEnv {
  (* [ChatPromptTemplate.from_template] then [format] on the variables *)
  format_prompt : template -> vars -> result str;
  (* the [content] of [llm.invoke] on the prompt text *)
  llm_invoke : llm_id -> nat -> str -> result str;
  (* [db.get_table_info] *)
  get_table_info : db_handle -> nat -> result str;
  (* [db.run] *)
  db_run : db_handle -> nat -> str -> result str;
  (* [SQLDatabase.from_uri] with the settings of the sidebar *)
  from_uri : nat -> result db_handle;
  (* str.lower outside ASCII *)
  unicode_lower : str -> str;
  (* the operating system *)
  platform : os
}.

(* ===================================================================== *)
(** ** The program *)
(* ===================================================================== *)

Section Program.

Variable E : Env.

Definition tick (w : world) : nat := length (trace w).

(** [prompt = ChatPromptTemplate.from_template(template)] followed by
    [prompt.format(...)], or the prompt step of a chain. *)
Definition render (t : template) (v : vars) : M str :=
  fun w => (format_prompt E t v, emit (EPrompt t v) w).

Definition invoke (l : llm_id) (prompt_text : str) : M str :=
  fun w => (llm_invoke E l (tick w) prompt_text, emit (ELlm l prompt_text) w).

Definition table_info (h : db_handle) : M str :=
  fun w => (get_table_info E h (tick w), emit (ETableInfo h) w).

Definition run_sql (h : db_handle) (sql : str) : M str :=
  fun w => (db_run E h (tick w) sql, emit (EDbRun h sql) w).

Definition st_markdown (text : str) : M unit := log_event (EMarkdown text).
Definition st_error (text : str) : M unit := log_event (EError text).
Definition st_success (text : str) : M unit := log_event (ESuccess text).
Definition sleep (seconds : nat) : M unit := log_event (ESleep seconds).

(** *** class SchemaDescriber

    The two instances ([ChatApp.describer], [SQLAssistant.describer]) share
    the default [output_file].  [store] holds the characters of the file;
    both [open] calls are in text mode, so line ends are translated on the
    way in and on the way out.  Text is made of Unicode scalar values (what
    the model client and the file decoder give), on which the UTF-8 encoder
    and decoder are inverse. *)

Definition generate_description (schema_info : str) : M str :=
  prompt_text <- render (TDescribe schema_info)
                        [("schema_info"%string, VStr schema_info)] ;;
  content <- invoke LDescriber prompt_text ;;
  ret (strip content).

Definition file_text (w : world) : str :=
  match store w with Some c => c | None => [] end.

(** [file.write(text)] on a file opened with mode ["a"]. *)
Definition written (text : str) : str :=
  write_newlines (os_linesep (platform E)) text.

Definition save_descriptions (descriptions : str) : M unit :=
  fun w =>
    (Ok tt,
     mkWorld (ss_chat_history w) (ss_db w)
             (Some (file_text w ++ written descriptions ++ written separator))
             (EStoreAppend (descriptions ++ separator) :: trace w)).

Definition load_existing_descriptions : M str :=
  fun w =>
    match store w with
    | Some c => (Ok (universal_newlines c), w)
    | None => (Ok [], w)
    end.

(** What a later [file.read()] gives for a text written to the file. *)
Definition read_back (text : str) : str := universal_newlines (written text).

Definition describe_and_save_all (database_schema : str) : M str :=
  log_event (ECall CDescriber [("database_schema"%string, VStr database_schema)]) ;;
  existing_descriptions <- load_existing_descriptions ;;
  if truthy existing_descriptions then
    ret existing_descriptions
  else
    description <- generate_description database_schema ;;
    save_descriptions description ;;
    ret description.

(** *** class QuestionClassifier *)

Definition py_lower : str -> str := lower (unicode_lower E).

Definition classify_question (question : str) : M str :=
  log_event (ECall CClassifier [("question"%string, VStr question)]) ;;
  prompt_text <- render TClassify [("question"%string, VStr question)] ;;
  content <- invoke LClassifier prompt_text ;;
  ret (py_lower (strip content)).

(** *** class SchemaVerifier *)

Definition verify_schema_relevance (question schema_info : str) : M str :=
  log_event (ECall CVerifier [("question"%string, VStr question);
                              ("schema_info"%string, VStr schema_info)]) ;;
  prompt_text <- render TVerify [("question"%string, VStr question);
                                 ("schema_info"%string, VStr schema_info)] ;;
  content <- invoke LVerifier prompt_text ;;
  ret (py_lower (strip content)).

(** *** class NonSeriousAssistant *)

Definition get_non_serious_response (question : str) : M str :=
  log_event (ECall CNonSerious [("question"%string, VStr question)]) ;;
  prompt_text <- render TNonSerious [("question"%string, VStr question)] ;;
  content <- invoke LNonSerious prompt_text ;;
  ret (strip content).

(** *** class SQLAssistant *)

Definition error_message : str :=
  lit "An error occurred while processing your request. This could be due to hitting the API limit or other issues. Please try again later.".

(** The chain that [get_sql_chain] returns, applied to its input: the
    inner [get_schema] is called on the input, the result is assigned to
    [schema], then prompt, [llm_1] and [StrOutputParser]. *)
Definition get_sql_chain (h : db_handle) (input : vars) : M str :=
  schema_info <- table_info h ;;
  descriptions <- describe_and_save_all schema_info ;;
  prompt_text <- render TSql (input ++ [("schema"%string, VStr descriptions)]) ;;
  invoke LSql prompt_text.

(** The local [chain] of [generate_response], applied to its input.  The
    second [assign] binds [schema] to what [lambda _: get_schema] returns,
    the function [get_schema] itself: a plain function is not a Runnable, so
    nothing calls it.  The two assignments of that step run side by side;
    only [db.run] among them has an effect. *)
Definition chain (h : db_handle) (input : vars) : M str :=
  query <- get_sql_chain h input ;;
  response <- run_sql h query ;;
  prompt_text <- render TAnswer
                   (input ++ [("query"%string, VStr query)]
                          ++ [("schema"%string, VFun "get_schema");
                              ("response"%string, VStr response)]) ;;
  invoke LAnswer prompt_text.

Definition generate_response (user_query : str) (h : db_handle)
    (chat_history : list message) : M str :=
  log_event (ECall CPipeline [("user_query"%string, VStr user_query);
                              ("db"%string, VDb h);
                              ("chat_history"%string, VMsgs chat_history)]) ;;
  try_except
    (sleep 10 ;;
     chain h [("question"%string, VStr user_query);
              ("chat_history"%string, VMsgs chat_history)])
    (fun _ =>
       st_error error_message ;;
       ret error_message).

(** *** class DatabaseConnector *)

Definition connect : M db_handle :=
  fun w => (from_uri E (tick w), emit EConnect w).

(** *** class ChatApp *)

Definition greeting : str :=
  lit "Hello! I'm SQL assistant. Ask me anything about your database.".

Definition rejection : str :=
  lit "Thank you for your question! It doesn't seem to be related to the database. Feel free to ask anything related to the database, such as queries about employees, products, sales, or other business data, and I'll be happy to assist you!".

Definition attribute_error : exn := Exception (lit "AttributeError").

(** [st.session_state.chat_history] *)
Definition get_chat_history : M (list message) :=
  fun w =>
    match ss_chat_history w with
    | Some l => (Ok l, w)
    | None => (Raise attribute_error, w)
    end.

(** [st.session_state.chat_history.append(m)] *)
Definition append_message (m : message) : M unit :=
  fun w =>
    match ss_chat_history w with
    | Some l => (Ok tt, mkWorld (Some (l ++ [m])) (ss_db w) (store w) (trace w))
    | None => (Raise attribute_error, w)
    end.

(** [st.session_state.db] *)
Definition get_db : M (option db_handle) :=
  fun w =>
    match ss_db w with
    | Some d => (Ok d, w)
    | None => (Raise attribute_error, w)
    end.

Definition set_db (d : option db_handle) : M unit :=
  fun w => (Ok tt, mkWorld (ss_chat_history w) (Some d) (store w) (trace w)).

(** [l[-2:]] *)
Definition last_two {A} (l : list A) : list A := skipn (length l - 2) l.

Definition init_session_state : M unit :=
  fun w =>
    (Ok tt,
     mkWorld
       (match ss_chat_history w with
        | None => Some [AIMessage greeting]
        | Some l => Some l
        end)
       (match ss_db w with
        | None => Some None
        | Some d => Some d
        end)
       (store w) (trace w)).

Definition exn_text (e : exn) : str := match e with Exception m => m end.

(** [clicked]: the Connect button was pressed in this run of the script. *)
Definition sidebar (clicked : bool) : M unit :=
  if clicked then
    try_except
      (h <- connect ;;
       set_db (Some h) ;;
       st_success (lit "Connected to the database!"))
      (fun e => st_error (lit "Failed to connect: " ++ exn_text e))
  else ret tt.

Fixpoint display_messages (l : list message) : M unit :=
  match l with
  | [] => ret tt
  | AIMessage c :: l' => st_markdown c ;; display_messages l'
  | HumanMessage c :: l' => st_markdown c ;; display_messages l'
  end.

Definition display_chat_history : M unit :=
  l <- get_chat_history ;;
  display_messages l.

(** [user_query]: what [st.chat_input] returned, [None] when nothing was
    submitted.  A [SQLDatabase] object is true, so [if st.session_state.db]
    asks whether the handle is set. *)
Definition handle_user_query (user_query : option str) : M unit :=
  match user_query with
  | None => ret tt
  | Some q =>
    if truthy q then
      append_message (HumanMessage q) ;;
      st_markdown q ;;
      d <- get_db ;;
      match d with
      | Some h =>
        classification <- classify_question q ;;
        if eqb classification (lit "serious") then
          schema_info <- table_info h ;;
          descriptions <- describe_and_save_all schema_info ;;
          relevance <- verify_schema_relevance q descriptions ;;
          if eqb relevance (lit "related") then
            history <- get_chat_history ;;
            response <- generate_response q h (last_two history) ;;
            st_markdown response ;;
            append_message (AIMessage response)
          else
            st_markdown rejection ;;
            append_message (AIMessage rejection)
        else
          response <- get_non_serious_response q ;;
          st_markdown response ;;
          append_message (AIMessage response)
      | None => ret tt
      end
    else ret tt
  end.

Definition run (clicked : bool) (user_query : option str) : M unit :=
  sidebar clicked ;;
  display_chat_history ;;
  handle_user_query user_query.

(** One execution of the script: [app = ChatApp()] then [app.run()]. *)
Definition main (clicked : bool) (user_query : option str) : M unit :=
  init_session_state ;;
  run clicked user_query.

(** The script executed once per submitted question, the handle untouched
    in between. *)
Fixpoint turns (qs : list str) : M unit :=
  match qs with
  | [] => ret tt
  | q :: qs' => main false (Some q) ;; turns qs'
  end.

End Program.

Arguments last_two {A} l.

(* ===================================================================== *)
(** ** Whose event is it *)
(* ===================================================================== *)

Definition of_describer (e : event) : bool :=
  match e with
  | ECall CDescriber _ | EPrompt (TDescribe _) _ | ELlm LDescriber _
  | EStoreAppend _ => true
  | _ => false
  end.

Definition of_classifier (e : event) : bool :=
  match e with
  | ECall CClassifier _ | EPrompt TClassify _ | ELlm LClassifier _ => true
  | _ => false
  end.

Definition of_verifier (e : event) : bool :=
  match e with
  | ECall CVerifier _ | EPrompt TVerify _ | ELlm LVerifier _ => true
  | _ => false
  end.

Definition of_responder (e : event) : bool :=
  match e with
  | ECall CNonSerious _ | EPrompt TNonSerious _ | ELlm LNonSerious _ => true
  | _ => false
  end.

Definition of_pipeline (e : event) : bool :=
  match e with
  | ECall CPipeline _ | ESleep _ | ETableInfo _ | EDbRun _ _ | EError _
  | EPrompt TSql _ | EPrompt TAnswer _ | ELlm LSql _ | ELlm LAnswer _ => true
  | _ => of_describer e
  end.

(** The variables a formatting of the answer template was given. *)
Definition answer_inputs (e : event) : option vars :=
  match e with EPrompt TAnswer v => Some v | _ => None end.

Fixpoint lookup (k : string) (v : vars) : option pyval :=
  match v with
  | [] => None
  | (k', x) :: v' => if String.eqb k k' then Some x else lookup k v'
  end.

(** The session after the question was logged and echoed: the state
    [Received] of a turn. *)
Definition received (q : str) (w : world) : world :=
  snd (bind (append_message (HumanMessage q)) (fun _ => st_markdown q) w).

(** The body of [if st.session_state.db:] in [handle_user_query], lines
    386 to 412, as a computation of its own; [handle_user_query_route]
    shows it is what [handle_user_query] runs from [received]. *)
Definition route (E : Env) (q : str) (h : db_handle) : M unit :=
  classification <- classify_question E q ;;
  if eqb classification (lit "serious") then
    schema_info <- table_info E h ;;
    descriptions <- describe_and_save_all E schema_info ;;
    relevance <- verify_schema_relevance E q descriptions ;;
    if eqb relevance (lit "related") then
      history <- get_chat_history ;;
      response <- generate_response E q h (last_two history) ;;
      st_markdown response ;;
      append_message (AIMessage response)
    else
      st_markdown rejection ;;
      append_message (AIMessage rejection)
  else
    response <- get_non_serious_response E q ;;
    st_markdown response ;;
    append_message (AIMessage response).

Definition is_markdown (e : event) : bool :=
  match e with EMarkdown _ => true | _ => false end.

(** The events of a turn up to the verdict of the verifier. *)
Definition before_verdict (e : event) : bool :=
  is_markdown e || of_classifier e || is_table_info e || of_describer e
  || of_verifier e.

(** The turn on [q] from [w] is classified ["serious"] and the verifier
    returns [relevance], leaving the world [w4]. *)
Definition serious_path (E : Env) (q : str) (h : db_handle) (w : world)
    (relevance : str) (w4 : world) : Prop :=
  exists w1 schema_info w2 descriptions w3,
    classify_question E q (received q w) = (Ok (lit "serious"), w1) /\
    table_info E h w1 = (Ok schema_info, w2) /\
    describe_and_save_all E schema_info w2 = (Ok descriptions, w3) /\
    verify_schema_relevance E q descriptions w3 = (Ok relevance, w4).

(** [m] leaves the session state alone and only makes events of kind [p]. *)
Definition quiet (p : event -> bool) {A} (m : M A) : Prop :=
  forall w r w', m w = (r, w') ->
    ss_chat_history w' = ss_chat_history w /\ ss_db w' = ss_db w /\
    exists events, trace w' = events ++ trace w /\ forallb p events = true.

(** From [w0] to [w] the session state did not change and only events of
    kind [p] were made. *)
Definition reach (p : event -> bool) (w0 w : world) : Prop :=
  ss_chat_history w = ss_chat_history w0 /\ ss_db w = ss_db w0 /\
  exists events, trace w = events ++ trace w0 /\ forallb p events = true.

Definition not_responder (e : event) : bool := negb (is_call CNonSerious e).

(** In every formatting of the answer template [schema] is bound to a
    function object. *)
Definition answer_schema_is_function (e : event) : bool :=
  match answer_inputs e with
  | Some v =>
      match lookup "schema" v with
      | Some (VFun _) => true
      | _ => false
      end
  | None => true
  end.

Definition is_answer_prompt (e : event) : bool :=
  match answer_inputs e with Some _ => true | None => false end.

(** The log that questions [qs] answered by [replies] add, in order. *)
Fixpoint exchanges (qs replies : list str) : list message :=
  match qs, replies with
  | q :: qs', r :: replies' =>
      HumanMessage q :: AIMessage r :: exchanges qs' replies'
  | _, _ => []
  end.

(** The input of [chain] and the arguments of [generate_response]. *)
Definition chain_input (q : str) (hist : list message) : vars :=
  [("question"%string, VStr q); ("chat_history"%string, VMsgs hist)].

Definition pipeline_call (q : str) (h : db_handle) (hist : list message) : event :=
  ECall CPipeline [("user_query"%string, VStr q); ("db"%string, VDb h);
                   ("chat_history"%string, VMsgs hist)].

(** The world in which [chain.invoke] starts when [generate_response] is
    called in [w]. *)
Definition at_invoke (q : str) (h : db_handle) (hist : list message)
    (w : world) : world :=
  emit (ESleep 10) (emit (pipeline_call q h hist) w).

(* ===================================================================== *)
(** ** A scripted environment *)
(* ===================================================================== *)

(** Fixed replies, to run the program on: the classifier answers
    [classification], the verifier [relevance], the database [rows]. *)
Module Script.

Definition schema : str := lit "CREATE TABLE dimEmployee (EmployeeKey INT)".

Definition prompt_text (t : template) : str :=
  match t with
  | TDescribe s => lit "describe " ++ s
  | TClassify => lit "classify"
  | TVerify => lit "verify"
  | TNonSerious => lit "chat"
  | TSql => lit "write sql"
  | TAnswer => lit "answer"
  end.

Definition reply (classification relevance : str) (l : llm_id) : str :=
  match l with
  | LDescriber => lit "  dimEmployee(EmployeeKey INT PK) " ++ [10%N]
  | LClassifier => classification
  | LVerifier => relevance
  | LNonSerious => lit " It just didn't add up! "
  | LSql => lit "SELECT COUNT(*) FROM dimEmployee"
  | LAnswer => lit "There are 296 employees."
  end.

Definition env (classification relevance : str) (rows : result str) : Env :=
  mkEnv (fun t _ => Ok (prompt_text t))
        (fun l _ _ => Ok (reply classification relevance l))
        (fun _ _ => Ok schema)
        (fun _ _ _ => rows)
        (fun _ => Raise (Exception (lit "Can't connect to MySQL server")))
        (fun s => s)
        Posix.

Definition rows296 : result str := Ok (lit "[(296,)]").

Definition description : str := lit "dimEmployee(EmployeeKey INT PK)".

Definition question : str := lit "How many employees are there?".

Definition joke : str := lit "Tell me a joke".

(** A session after [init_session_state], connected or not, with or
    without a description on file. *)
Definition session (d : option db_handle) (file : option str) : world :=
  mkWorld (Some [AIMessage greeting]) (Some d) file [].

(** Four scripts: every stage succeeds; the query fails in the database;
    the verifier says no; the classifier says no. *)
Definition answers : Env := env (lit "Serious") (lit "Related") rows296.

Definition query_fails : Env :=
  env (lit "Serious") (lit "Related")
      (Raise (Exception (lit "Table 'dimemployee' doesn't exist"))).

Definition unrelated : Env := env (lit " Serious ") (lit "Not related") rows296.

Definition jokes : Env := env (lit "Non-Serious") [] rows296.

Definition connected : world := session (Some 1) (Some description).

(** The worlds a turn on [q] from [w] goes through up to the verdict. *)
Definition classified (E : Env) (q : str) (w : world) : world :=
  snd (classify_question E q (received q w)).

Definition dumped (E : Env) (q : str) (w : world) : world :=
  snd (table_info E 1 (classified E q w)).

Definition described (E : Env) (q : str) (w : world) : world :=
  snd (describe_and_save_all E schema (dumped E q w)).

Definition verdict (E : Env) (q : str) (w : world) : world :=
  snd (verify_schema_relevance E q description (described E q w)).

End Script.

(* ===================================================================== *)
(** ** Sessions, and what is said about them *)
(* ===================================================================== *)

(** Streamlit executes the script once per interaction, and an exception
    that leaves one execution does not end the session: the next execution
    starts from the state the failed one left.  An interaction is whether
    Connect was pressed and what the chat input returned. *)
Fixpoint session (E : Env) (steps : list (bool * option str)) (w : world)
    : world :=
  match steps with
  | [] => w
  | (clicked, user_query) :: rest =>
      session E rest (snd (main E clicked user_query w))
  end.

(** The questions of a session that pass [if user_query:]. *)
Fixpoint submitted (steps : list (bool * option str)) : list str :=
  match steps with
  | [] => []
  | (_, Some q) :: rest => if truthy q then q :: submitted rest else submitted rest
  | (_, None) :: rest => submitted rest
  end.

(** Questions in order, each with the reply it got, if it got one. *)
Fixpoint transcript (qs : list str) (replies : list (option str))
    : list message :=
  match qs, replies with
  | q :: qs', Some a :: replies' =>
      HumanMessage q :: AIMessage a :: transcript qs' replies'
  | q :: qs', None :: replies' => HumanMessage q :: transcript qs' replies'
  | _, _ => []
  end.

(** The log a script execution starts from, once [init_session_state] has
    run. *)
Definition initial_log (w : world) : list message :=
  match ss_chat_history w with
  | None => [AIMessage greeting]
  | Some log => log
  end.

Definition content_of (m : message) : str :=
  match m with AIMessage c | HumanMessage c => c end.

(** Between [w] and [w'] the description file was left alone, or it was
    empty and got its one write. *)
Definition cache_ok (w w' : world) : Prop :=
  exists events,
    trace w' = events ++ trace w /\
    ((store w' = store w /\ count is_store_append events = 0) \/
     (file_text w = [] /\ file_text w' <> [] /\
      count is_store_append events = 1)).

Definition caching {A} (m : M A) : Prop :=
  forall w r w', m w = (r, w') -> cache_ok w w'.

(** Between [w] and [w'] at most [k] model calls, [s] sleeps, [d] queries
    and [t] schema dumps were made. *)
Definition spends (k s d t : nat) (w w' : world) : Prop :=
  exists events,
    trace w' = events ++ trace w /\
    count is_any_llm events <= k /\
    count is_sleep events <= s /\
    count is_db_run events <= d /\
    count is_table_info events <= t.

(** Scripts with an outage, or on another platform. *)
Module Outage.

(** The classifier's model refuses every call. *)

Definition quota : exn := Exception (lit "429 Resource has been exhausted").

Definition classifier_down : Env :=
  mkEnv (fun t _ => Ok (Script.prompt_text t))
        (fun l _ _ =>
           match l with
           | LClassifier => Raise quota
           | _ => Ok (Script.reply (lit "Serious") (lit "Related") l)
           end)
        (fun _ _ => Ok Script.schema)
        (fun _ _ _ => Script.rows296)
        (fun _ => Ok 1)
        (fun s => s)
        Posix.

(** The responder's model refuses every call. *)
Definition responder_down : Env :=
  mkEnv (fun t _ => Ok (Script.prompt_text t))
        (fun l _ _ =>
           match l with
           | LNonSerious => Raise quota
           | _ => Ok (Script.reply (lit "Non-Serious") [] l)
           end)
        (fun _ _ => Ok Script.schema)
        (fun _ _ _ => Script.rows296)
        (fun _ => Ok 1)
        (fun s => s)
        Posix.

(** The same replies as [Script.answers], on Windows. *)
Definition on_windows : Env :=
  mkEnv (fun t _ => Ok (Script.prompt_text t))
        (fun l _ _ => Ok (Script.reply (lit "Serious") (lit "Related") l))
        (fun _ _ => Ok Script.schema)
        (fun _ _ _ => Script.rows296)
        (fun _ => Ok 1)
        (fun s => s)
        Windows.

(** A description file whose first line ends in CR LF. *)
Definition crlf_file : str :=
  lit "dimEmployee(EmployeeKey INT PK)" ++ [13%N; 10%N] ++ lit "dimDate(DateKey INT PK)".

End Outage.

(* ===================================================================== *)
(** ** Facts on strings *)
(* ===================================================================== *)

Section StringFacts.

Lemma str_eqb_refl (a : str) : eqb a a = true.
Proof.
  induction a as [|x a IH]; simpl; [reflexivity|].
  now rewrite N.eqb_refl, IH.
Qed.

Lemma str_eqb_eq (a b : str) : eqb a b = true <-> a = b.
Proof.
  split.
  - revert b; induction a as [|x a IH]; intros [|y b]; simpl; try discriminate;
      [reflexivity|].
    intros H. apply andb_true_iff in H as [Hx Hr].
    apply N.eqb_eq in Hx. subst. f_equal. now apply IH.
  - intros ->. apply str_eqb_refl.
Qed.

Lemma str_eqb_neq (a b : str) : eqb a b = false <-> a <> b.
Proof.
  split.
  - intros H E. apply str_eqb_eq in E. congruence.
  - intros H. destruct (eqb a b) eqn:E; [|reflexivity].
    apply str_eqb_eq in E. contradiction.
Qed.

Lemma truthy_false (s : str) : truthy s = false <-> s = [].
Proof. destruct s; simpl; split; intros; congruence. Qed.

Lemma truthy_true (s : str) : truthy s = true <-> s <> [].
Proof. destruct s; simpl; split; intros; congruence. Qed.

Lemma nil_or_not (s : str) : s = [] \/ s <> [].
Proof. destruct s; [now left | right; discriminate]. Qed.

Lemma separator_not_nil (d : str) : d ++ separator <> [].
Proof. destruct d; discriminate. Qed.

Lemma universal_newlines_nil s : universal_newlines s = [] <-> s = [].
Proof.
  destruct s as [|c s]; simpl; [easy|].
  destruct (c =? 13)%N; split; discriminate.
Qed.

Lemma universal_newlines_no_cr s : no_cr s = true -> universal_newlines s = s.
Proof.
  induction s as [|c s IH]; simpl; [reflexivity|]. intros H.
  apply andb_true_iff in H as [Hc Hs]. apply negb_true_iff in Hc.
  now rewrite Hc, IH.
Qed.

Lemma universal_newlines_cr c s :
  (c =? 13)%N = true ->
  universal_newlines (c :: s)
  = 10%N :: match s with
            | c' :: s'' =>
                if (c' =? 10)%N then universal_newlines s''
                else universal_newlines s
            | [] => []
            end.
Proof. intros H. simpl. rewrite H. now destruct s. Qed.

Lemma universal_newlines_other c s :
  (c =? 13)%N = false ->
  universal_newlines (c :: s) = c :: universal_newlines s.
Proof. intros H. simpl. now rewrite H. Qed.

(** What is read never holds a carriage return. *)
Lemma universal_newlines_has_no_cr s : no_cr (universal_newlines s) = true.
Proof.
  assert (H : forall n s, length s <= n -> no_cr (universal_newlines s) = true).
  { clear s. induction n as [|n IH]; intros s Hn.
    - destruct s; [reflexivity|simpl in Hn; lia].
    - destruct s as [|c s]; [reflexivity|]. cbn [length] in Hn.
      destruct (c =? 13)%N eqn:Hc.
      + rewrite (universal_newlines_cr _ s Hc).
        change (no_cr (10%N :: ?l)) with (no_cr l).
        destruct s as [|c' s']; [reflexivity|]. cbn [length] in Hn.
        destruct (c' =? 10)%N; apply IH; cbn [length]; lia.
      + rewrite (universal_newlines_other _ s Hc).
        unfold no_cr. cbn [forallb]. rewrite Hc. cbn [negb andb].
        apply IH. lia. }
  now apply (H (length s)).
Qed.

Lemma write_newlines_app linesep a b :
  write_newlines linesep (a ++ b)
  = write_newlines linesep a ++ write_newlines linesep b.
Proof. unfold write_newlines. apply flat_map_app. Qed.

Lemma write_newlines_posix s : write_newlines (os_linesep Posix) s = s.
Proof.
  induction s as [|c s IH]; simpl; [reflexivity|].
  destruct (c =? 10)%N eqn:Hc; simpl; fold (write_newlines [10%N] s);
    change [10%N] with (os_linesep Posix); rewrite IH; [|reflexivity].
  apply N.eqb_eq in Hc. now subst.
Qed.

Lemma universal_newlines_windows s :
  no_cr s = true ->
  universal_newlines (write_newlines [13; 10]%N s) = s.
Proof.
  induction s as [|c s IH]; [reflexivity|]. intros H.
  unfold no_cr in H. cbn [forallb] in H.
  apply andb_true_iff in H as [Hc Hs]. apply negb_true_iff in Hc.
  change (write_newlines [13; 10]%N (c :: s))
    with ((if (c =? 10)%N then [13; 10]%N else [c])
          ++ write_newlines [13; 10]%N s).
  destruct (c =? 10)%N eqn:H10.
  - apply N.eqb_eq in H10. subst c. cbn [app].
    rewrite universal_newlines_cr by reflexivity.
    cbv beta iota. rewrite N.eqb_refl. now rewrite (IH Hs).
  - cbn [app]. rewrite (universal_newlines_other _ _ Hc). now rewrite (IH Hs).
Qed.

Lemma no_cr_separator : no_cr separator = true.
Proof. reflexivity. Qed.

End StringFacts.

(* ===================================================================== *)
(** ** Running computations: basic equations *)
(* ===================================================================== *)

Section Equations.

Variable E : Env.

Lemma bind_ok {A B} (m : M A) (f : A -> M B) w a w' :
  m w = (Ok a, w') -> bind m f w = f a w'.
Proof. intros H. unfold bind. now rewrite H. Qed.

Lemma bind_raise {A B} (m : M A) (f : A -> M B) w e w' :
  m w = (Raise e, w') -> bind m f w = (Raise e, w').
Proof. intros H. unfold bind. now rewrite H. Qed.

Lemma count_app p (a b : list event) : count p (a ++ b) = count p a + count p b.
Proof. unfold count. now rewrite filter_app, length_app. Qed.

Lemma count_cons p e (a : list event) :
  count p (e :: a) = (if p e then 1 else 0) + count p a.
Proof. unfold count. simpl. now destruct (p e). Qed.

Lemma count_nil p : count p [] = 0.
Proof. reflexivity. Qed.

(** A stretch of trace made of events of kind [p] holds no event of a kind
    [q] disjoint from [p]. *)
Lemma count_disjoint (p q : event -> bool) (d : list event) :
  (forall e, p e = true -> q e = false) ->
  forallb p d = true -> count q d = 0.
Proof.
  intros Hpq. induction d as [|e d IH]; simpl; intros H; [reflexivity|].
  apply andb_true_iff in H as [He Hd].
  rewrite count_cons, (Hpq e He). simpl. now apply IH.
Qed.

Lemma file_text_load w :
  load_existing_descriptions w = (Ok (universal_newlines (file_text w)), w).
Proof. unfold load_existing_descriptions, file_text. now destruct (store w). Qed.

Lemma written_app a b : written E (a ++ b) = written E a ++ written E b.
Proof. apply write_newlines_app. Qed.

(** A text without carriage return is read as it was written, on either
    platform. *)
Lemma read_back_no_cr text : no_cr text = true -> read_back E text = text.
Proof.
  intros H. unfold read_back, written. destruct (platform E).
  - rewrite write_newlines_posix. now apply universal_newlines_no_cr.
  - now apply (universal_newlines_windows text).
Qed.

(** Once the separator is written the file holds text. *)
Lemma written_separator_not_nil x : x ++ written E separator <> [].
Proof.
  destruct x; [|discriminate]. unfold written.
  destruct (platform E); discriminate.
Qed.

Lemma saved_not_nil x d : x ++ written E d ++ written E separator <> [].
Proof. rewrite app_assoc. apply written_separator_not_nil. Qed.

(** What is read back after the separator was written differs from the
    description alone. *)
Lemma read_back_differs d : read_back E (d ++ separator) <> d.
Proof.
  destruct (no_cr d) eqn:Hd.
  - rewrite read_back_no_cr
      by (unfold no_cr; rewrite forallb_app; fold (no_cr d); now rewrite Hd).
    intros H. apply (f_equal (@length N)) in H. rewrite length_app in H.
    change (length separator) with 82 in H. lia.
  - intros H. unfold read_back in H.
    pose proof (universal_newlines_has_no_cr (written E (d ++ separator))) as Hn.
    rewrite H in Hn. congruence.
Qed.

(** The cache hit: a description is on file. *)
Lemma describe_hit (database_schema : str) w :
  file_text w <> [] ->
  describe_and_save_all E database_schema w
  = (Ok (universal_newlines (file_text w)),
     emit (ECall CDescriber [("database_schema"%string, VStr database_schema)]) w).
Proof.
  intros H. unfold describe_and_save_all, bind, log_event.
  rewrite file_text_load.
  replace (file_text (emit _ w)) with (file_text w) by reflexivity.
  assert (Ht : truthy (universal_newlines (file_text w)) = true).
  { apply truthy_true. intros Hn.
    apply (proj1 (universal_newlines_nil _)) in Hn. contradiction. }
  now rewrite Ht.
Qed.

(** The cache miss, in terms of [generate_description]. *)
Lemma describe_miss (database_schema : str) w :
  file_text w = [] ->
  describe_and_save_all E database_schema w
  = bind (generate_description E database_schema)
         (fun description => bind (save_descriptions E description)
                                  (fun _ => ret description))
         (emit (ECall CDescriber [("database_schema"%string, VStr database_schema)]) w).
Proof.
  intros H. unfold describe_and_save_all at 1. unfold bind at 1, log_event.
  unfold bind at 1. rewrite file_text_load.
  replace (file_text (emit _ w)) with (file_text w) by reflexivity.
  rewrite H. reflexivity.
Qed.

End Equations.

(* ===================================================================== *)
(** ** The schema description cache *)
(* ===================================================================== *)

Section Cache.

Variable E : Env.

(** The f-string of [generate_description] has spliced the schema into the
    template before the template is parsed, so whether the prompt can be
    built depends on the schema text.  When building it raises, the
    exception leaves [describe_and_save_all]: no model is asked and nothing
    is written. *)
Lemma describe_template_failure (database_schema : str) (w : world) e :
  file_text w = [] ->
  format_prompt E (TDescribe database_schema)
    [("schema_info"%string, VStr database_schema)] = Raise e ->
  describe_and_save_all E database_schema w
  = (Raise e,
     emit (EPrompt (TDescribe database_schema)
                   [("schema_info"%string, VStr database_schema)])
          (emit (ECall CDescriber
                   [("database_schema"%string, VStr database_schema)]) w)).
Proof.
  intros Hempty Hfmt. rewrite describe_miss by assumption.
  unfold generate_description, bind, render. cbn [emit]. now rewrite Hfmt.
Qed.

(** C3, as the code has it.  [describe_and_save_all]: when the file holds
    text the call returns what reading the file gives (its characters,
    with every CR LF and every other CR read as LF; the very characters
    when there is no CR), whatever the argument, and the only event is the
    call itself (no model call, no write).  Otherwise, when the prompt is
    built and the model replies, the call makes that one model call,
    appends the stripped reply and the separator to the file and returns
    the stripped reply. *)
Theorem describe_and_save_all_spec (database_schema : str) (w : world) :
  let call := ECall CDescriber [("database_schema"%string, VStr database_schema)] in
  let inputs := [("schema_info"%string, VStr database_schema)] in
  (file_text w <> [] ->
   describe_and_save_all E database_schema w
   = (Ok (universal_newlines (file_text w)), emit call w) /\
   (no_cr (file_text w) = true ->
    universal_newlines (file_text w) = file_text w))
  /\
  (file_text w = [] ->
   forall prompt_text content,
     format_prompt E (TDescribe database_schema) inputs = Ok prompt_text ->
     llm_invoke E LDescriber (2 + tick w) prompt_text = Ok content ->
     describe_and_save_all E database_schema w
     = (Ok (strip content),
        mkWorld (ss_chat_history w) (ss_db w)
                (Some (file_text w ++ written E (strip content)
                                   ++ written E separator))
                (EStoreAppend (strip content ++ separator)
                 :: ELlm LDescriber prompt_text
                 :: EPrompt (TDescribe database_schema) inputs
                 :: call :: trace w))).
Proof.
  intros call inputs. split.
  - intros Hne. split; [now apply describe_hit|].
    apply universal_newlines_no_cr.
  - intros Hempty prompt_text content Hfmt Hllm.
    rewrite describe_miss by assumption.
    unfold generate_description, bind, render, invoke, save_descriptions, ret, tick.
    cbn [emit trace ss_chat_history ss_db store length].
    fold inputs. rewrite Hfmt.
    cbn [emit trace ss_chat_history ss_db store length].
    change (S (S (length (trace w)))) with (2 + tick w).
    rewrite Hllm. reflexivity.
Qed.

End Cache.

Lemma describe_and_save_all_spec_witness :
  describe_and_save_all (Script.env [] [] Script.rows296) (lit "ignored")
    (Script.session None (Some Script.description))
  = (Ok Script.description,
     emit (ECall CDescriber [("database_schema"%string, VStr (lit "ignored"))])
          (Script.session None (Some Script.description)))
  /\
  fst (describe_and_save_all (Script.env [] [] Script.rows296) Script.schema
         (Script.session None None))
  = Ok Script.description.
Proof.
  split.
  - destruct (proj1 (describe_and_save_all_spec (Script.env [] [] Script.rows296)
                       (lit "ignored")
                       (Script.session None (Some Script.description))))
      as (Hrun & _); [discriminate|].
    rewrite Hrun. vm_compute. reflexivity.
  - rewrite (proj2 (describe_and_save_all_spec (Script.env [] [] Script.rows296)
                      Script.schema (Script.session None None))
               eq_refl (Script.prompt_text (TDescribe Script.schema))
               (Script.reply [] [] LDescriber) eq_refl eq_refl).
    reflexivity.
Defined.

(** C3 as stated fails: stored text with a line ending in CR LF is
    returned with that line ending in LF, not as stored.  On Windows the
    program's own write stores such text. *)
Lemma stored_text_is_not_returned_verbatim :
  (store (Script.session None (Some Outage.crlf_file)) = Some Outage.crlf_file /\
   exists returned w',
     describe_and_save_all Script.answers Script.schema
       (Script.session None (Some Outage.crlf_file))
     = (Ok returned, w') /\
     returned = lit "dimEmployee(EmployeeKey INT PK)" ++ [10%N]
                ++ lit "dimDate(DateKey INT PK)" /\
     returned <> Outage.crlf_file) /\
  (exists first w1 stored returned w2,
     describe_and_save_all Outage.on_windows Script.schema
       (Script.session None None) = (Ok first, w1) /\
     store w1 = Some stored /\
     describe_and_save_all Outage.on_windows Script.schema w1
     = (Ok returned, w2) /\
     returned <> stored).
Proof.
  split.
  - split; [reflexivity|]. eexists. eexists.
    split; [vm_compute; reflexivity|]. split; [vm_compute; reflexivity|].
    intros H. vm_compute in H. discriminate H.
  - do 5 eexists. split; [vm_compute; reflexivity|].
    split; [vm_compute; reflexivity|]. split; [vm_compute; reflexivity|].
    intros H. apply (f_equal (@length N)) in H. vm_compute in H. discriminate H.
Qed.

Section CacheTwice.

Variable E : Env.

(** What a successful call does on a cache miss. *)
Lemma describe_miss_ok (database_schema : str) w d1 w1 :
  file_text w = [] ->
  describe_and_save_all E database_schema w = (Ok d1, w1) ->
  store w1 = Some (written E d1 ++ written E separator) /\
  ss_chat_history w1 = ss_chat_history w /\ ss_db w1 = ss_db w /\
  exists p,
    trace w1 = [EStoreAppend (d1 ++ separator); ELlm LDescriber p;
                EPrompt (TDescribe database_schema)
                        [("schema_info"%string, VStr database_schema)];
                ECall CDescriber [("database_schema"%string, VStr database_schema)]]
               ++ trace w.
Proof.
  intros Hempty Hrun. rewrite describe_miss in Hrun by assumption.
  unfold generate_description, bind, render, invoke, save_descriptions, ret in Hrun.
  destruct (format_prompt E (TDescribe database_schema) _) as [p|e]; [|discriminate].
  destruct (llm_invoke E LDescriber _ p) as [content|e]; [|discriminate].
  injection Hrun as <- <-. cbn [store ss_chat_history ss_db trace emit].
  replace (file_text (emit _ (emit _ (emit _ w)))) with (file_text w) by reflexivity.
  rewrite Hempty. repeat split; try reflexivity. now exists p.
Qed.

(** C2, as the code has it.  Two calls in a row, the first one returning:
    with text on file before the pair, both calls return what reading the
    file gives and nothing is written; with none, the file is written once,
    by the first call, and the second call returns what reading the file
    then gives: the first call's output followed by the separator, as read
    back (character for character when the output has no CR), which is
    never the first call's output. *)
Theorem describe_and_save_all_twice (schema1 schema2 : str) w d1 w1 :
  describe_and_save_all E schema1 w = (Ok d1, w1) ->
  exists w2 events,
    trace w2 = events ++ trace w /\
    (file_text w <> [] ->
       d1 = universal_newlines (file_text w) /\
       describe_and_save_all E schema2 w1 = (Ok d1, w2) /\
       count is_store_append events = 0 /\
       store w2 = store w) /\
    (file_text w = [] ->
       describe_and_save_all E schema2 w1
       = (Ok (read_back E (d1 ++ separator)), w2) /\
       read_back E (d1 ++ separator) <> d1 /\
       (no_cr d1 = true -> read_back E (d1 ++ separator) = d1 ++ separator) /\
       count is_store_append events = 1 /\
       store w2 = Some (written E d1 ++ written E separator)).
Proof.
  intros Hrun.
  set (call2 := ECall CDescriber [("database_schema"%string, VStr schema2)]).
  exists (emit call2 w1).
  destruct (nil_or_not (file_text w)) as [Htext|Hne].
  - destruct (describe_miss_ok _ _ Htext Hrun) as (Hstore & _ & _ & p & Htrace).
    eexists. split; [cbn [emit trace]; rewrite Htrace; rewrite app_comm_cons; reflexivity|].
    split; [intros H; now contradiction H|]. intros _.
    assert (Hfile : file_text w1 = written E d1 ++ written E separator)
      by (unfold file_text; now rewrite Hstore).
    split; [|split; [|split; [|split]]].
    + rewrite describe_hit; rewrite Hfile; [|apply written_separator_not_nil].
      unfold read_back. now rewrite written_app.
    + apply read_back_differs.
    + intros Hd. apply read_back_no_cr. unfold no_cr.
      rewrite forallb_app. fold (no_cr d1). now rewrite Hd.
    + reflexivity.
    + exact Hstore.
  - rewrite describe_hit in Hrun by assumption.
    injection Hrun as <- <-.
    exists [call2; ECall CDescriber [("database_schema"%string, VStr schema1)]].
    split; [reflexivity|].
    split; [|intros H; contradiction]. intros _.
    split; [reflexivity|]. split; [|split; reflexivity].
    now rewrite describe_hit.
Qed.

End CacheTwice.

(** C2 as stated fails both ways.  From an empty store the second output is
    the first one plus the separator line; from a filled store the outputs
    agree, and nothing at all is written. *)
Lemma describe_twice_not_idempotent :
  let E := Script.env [] [] Script.rows296 in
  (exists w1 w2,
     describe_and_save_all E Script.schema (Script.session None None)
     = (Ok Script.description, w1) /\
     describe_and_save_all E Script.schema w1
     = (Ok (Script.description ++ separator), w2) /\
     Script.description <> Script.description ++ separator) /\
  (exists w1 w2,
     describe_and_save_all E Script.schema
       (Script.session None (Some Script.description))
     = (Ok Script.description, w1) /\
     describe_and_save_all E Script.schema w1 = (Ok Script.description, w2) /\
     count is_store_append (trace w2) = 0).
Proof.
  split.
  - eexists. eexists. split; [vm_compute; reflexivity|].
    split; [vm_compute; reflexivity|].
    intros H. apply (f_equal (@length N)) in H. vm_compute in H. discriminate.
  - eexists. eexists. split; [vm_compute; reflexivity|].
    split; vm_compute; reflexivity.
Qed.

Lemma describe_and_save_all_twice_witness :
  exists w2 events,
    trace w2 = events ++ [] /\
    describe_and_save_all Outage.on_windows (lit "other schema")
      (snd (describe_and_save_all Outage.on_windows Script.schema
              (Script.session None None)))
    = (Ok (Script.description ++ separator), w2) /\
    count is_store_append events = 1.
Proof.
  destruct (@describe_and_save_all_twice Outage.on_windows
              Script.schema (lit "other schema") (Script.session None None)
              Script.description
              (snd (describe_and_save_all Outage.on_windows
                      Script.schema (Script.session None None)))
              eq_refl)
    as (w2 & events & Htrace & _ & Hmiss).
  destruct (Hmiss eq_refl) as (Hrun & _ & Hsame & Hcount & _).
  exists w2, events. rewrite <- (Hsame eq_refl).
  repeat split; assumption.
Defined.

(* ===================================================================== *)
(** ** What each component does to the world *)
(* ===================================================================== *)

Section Components.

Variable E : Env.

Ltac run_in H :=
  repeat (cbn [emit store trace ss_chat_history ss_db] in H;
          match type of H with
          | context [match ?x with _ => _ end] =>
              lazymatch x with
              | context [match _ with _ => _ end] => fail
              | _ => destruct x eqn:?
              end
          end);
  cbn [emit store trace ss_chat_history ss_db] in H;
  try discriminate H; injection H as ? ?; subst.

Ltac stretch_of n l :=
  first [ exists l; split; reflexivity
        | lazymatch n with
          | S ?m => let l' := open_constr:((_ : event) :: l) in stretch_of m l'
          end ].

Ltac stretch := cbn [emit trace]; stretch_of 16 (@nil event).

Ltac stretch_first n l :=
  first [ exists l; split; [reflexivity|]
        | lazymatch n with
          | S ?m => let l' := open_constr:((_ : event) :: l) in stretch_first m l'
          end ].

Ltac quiet_by_cases H :=
  run_in H; cbn [emit trace ss_chat_history ss_db store];
  (split; [reflexivity|]); (split; [reflexivity|]); stretch.

Lemma classify_question_quiet q : quiet of_classifier (classify_question E q).
Proof.
  intros w r w' H.
  unfold classify_question, bind, log_event, render, invoke, ret in H.
  quiet_by_cases H.
Qed.

Lemma verify_schema_relevance_quiet q s :
  quiet of_verifier (verify_schema_relevance E q s).
Proof.
  intros w r w' H.
  unfold verify_schema_relevance, bind, log_event, render, invoke, ret in H.
  quiet_by_cases H.
Qed.

Lemma get_non_serious_response_quiet q :
  quiet of_responder (get_non_serious_response E q).
Proof.
  intros w r w' H.
  unfold get_non_serious_response, bind, log_event, render, invoke, ret in H.
  quiet_by_cases H.
Qed.

Lemma describe_and_save_all_quiet s :
  quiet of_describer (describe_and_save_all E s).
Proof.
  intros w r w' H.
  destruct (nil_or_not (file_text w)) as [Hnil|Hne].
  - rewrite describe_miss in H by assumption.
    unfold generate_description, save_descriptions, bind, render, invoke, ret in H.
    quiet_by_cases H.
  - rewrite describe_hit in H by assumption.
    quiet_by_cases H.
Qed.

Lemma table_info_quiet h : quiet is_table_info (table_info E h).
Proof.
  intros w r w' H. unfold table_info in H. quiet_by_cases H.
Qed.

(** The responder is entered once by a call of its method. *)
Lemma get_non_serious_response_once q w r w' :
  get_non_serious_response E q w = (r, w') ->
  exists events,
    trace w' = events ++ trace w /\ count (is_call CNonSerious) events = 1.
Proof.
  intros H.
  unfold get_non_serious_response, bind, log_event, render, invoke, ret in H.
  run_in H; stretch.
Qed.

(** The pipeline always returns a text, leaves the session state alone, and
    makes each of its calls at most once. *)
Lemma generate_response_events q h hist w r w' :
  generate_response E q h hist w = (r, w') ->
  (exists text, r = Ok text) /\
  ss_chat_history w' = ss_chat_history w /\ ss_db w' = ss_db w /\
  exists events,
    trace w' = events ++ trace w /\
    forallb of_pipeline events = true /\
    count (is_call CPipeline) events = 1 /\
    count is_sleep events = 1 /\
    count is_table_info events <= 1 /\
    count (is_call CDescriber) events <= 1 /\
    count (is_llm LDescriber) events <= 1 /\
    count (is_llm LSql) events <= 1 /\
    count is_db_run events <= 1 /\
    count (is_llm LAnswer) events <= 1 /\
    forallb answer_schema_is_function events = true /\
    In (ECall CPipeline [("user_query"%string, VStr q); ("db"%string, VDb h);
                         ("chat_history"%string, VMsgs hist)]) events.
Proof.
  intros H.
  unfold generate_response, try_except, chain, get_sql_chain,
    describe_and_save_all, generate_description, save_descriptions,
    load_existing_descriptions, table_info, run_sql, sleep, st_error,
    bind, log_event, render, invoke, ret in H.
  run_in H;
    (split; [eexists; reflexivity|]);
    cbn [emit trace ss_chat_history ss_db store];
    (split; [reflexivity|]); (split; [reflexivity|]);
    stretch_first 16 (@nil event); cbn;
    repeat split; try lia;
    solve [repeat first [left; reflexivity | right]].
Qed.

(** A run of the pipeline in which no stage raises: the description is
    asked for once, and the one formatting of the answer template has
    [schema] bound to the function. *)
Lemma generate_response_ok_events q h hist w text w1 :
  chain E h [("question"%string, VStr q); ("chat_history"%string, VMsgs hist)]
    (emit (ESleep 10)
       (emit (ECall CPipeline [("user_query"%string, VStr q); ("db"%string, VDb h);
                               ("chat_history"%string, VMsgs hist)]) w))
  = (Ok text, w1) ->
  generate_response E q h hist w = (Ok text, w1) /\
  exists events,
    trace w1 = events ++ trace w /\
    count (is_call CDescriber) events = 1 /\
    count is_answer_prompt events = 1 /\
    forallb answer_schema_is_function events = true.
Proof.
  intros H. split.
  - unfold generate_response, try_except, sleep, log_event. unfold bind at 1 2.
    now rewrite H.
  - unfold chain, get_sql_chain,
      describe_and_save_all, generate_description, save_descriptions,
      load_existing_descriptions, table_info, run_sql,
      bind, log_event, render, invoke, ret in H.
    run_in H; stretch_first 16 (@nil event); cbn; repeat split.
Qed.

End Components.

(* ===================================================================== *)
(** ** The orchestrator: one turn *)
(* ===================================================================== *)

Section Turn.

Variable E : Env.

Lemma received_eq q w log :
  ss_chat_history w = Some log ->
  received q w
  = mkWorld (Some (log ++ [HumanMessage q])) (ss_db w) (store w)
            (EMarkdown q :: trace w).
Proof.
  intros H. unfold received, bind, append_message, st_markdown, log_event.
  rewrite H. reflexivity.
Qed.

Lemma append_message_ok m w log :
  ss_chat_history w = Some log ->
  append_message m w
  = (Ok tt, mkWorld (Some (log ++ [m])) (ss_db w) (store w) (trace w)).
Proof. intros H. unfold append_message. now rewrite H. Qed.

Lemma get_chat_history_ok w log :
  ss_chat_history w = Some log -> get_chat_history w = (Ok log, w).
Proof. intros H. unfold get_chat_history. now rewrite H. Qed.

(** With a handle set, a submitted question is logged, echoed and routed. *)
Lemma handle_user_query_route q w log h :
  truthy q = true ->
  ss_chat_history w = Some log ->
  ss_db w = Some (Some h) ->
  handle_user_query E (Some q) w = route E q h (received q w).
Proof.
  intros Hq Hlog Hdb. rewrite (received_eq q w Hlog).
  unfold handle_user_query. rewrite Hq.
  unfold bind at 1. rewrite (append_message_ok _ w Hlog).
  unfold bind at 1. unfold st_markdown at 1, log_event at 1.
  unfold bind at 1. unfold get_db. cbn [ss_db emit]. rewrite Hdb.
  reflexivity.
Qed.

(** C10.  A question submitted while the session's handle is unset is
    logged and echoed and nothing else happens: no component is entered, no
    model is called, and no AI message is appended. *)
Theorem handle_user_query_no_db q w log :
  truthy q = true ->
  ss_chat_history w = Some log ->
  ss_db w = Some None ->
  exists w' events,
    handle_user_query E (Some q) w = (Ok tt, w') /\
    ss_chat_history w' = Some (log ++ [HumanMessage q]) /\
    trace w' = events ++ trace w /\
    (forall c, count (is_call c) events = 0) /\
    count is_any_llm events = 0 /\
    events = [EMarkdown q].
Proof.
  intros Hq Hlog Hdb.
  exists (received q w), [EMarkdown q].
  rewrite (received_eq q w Hlog).
  split; [|repeat split; intros; reflexivity].
  unfold handle_user_query. rewrite Hq.
  unfold bind at 1. rewrite (append_message_ok _ w Hlog).
  unfold bind at 1. unfold st_markdown at 1, log_event at 1.
  unfold bind at 1. unfold get_db. cbn [ss_db emit]. rewrite Hdb.
  reflexivity.
Qed.

Lemma finish_turn text w log :
  ss_chat_history w = Some log ->
  bind (st_markdown text) (fun _ => append_message (AIMessage text)) w
  = (Ok tt,
     mkWorld (Some (log ++ [AIMessage text])) (ss_db w) (store w)
             (EMarkdown text :: trace w)).
Proof.
  intros H. unfold bind, st_markdown, log_event.
  now rewrite (append_message_ok _ (emit (EMarkdown text) w) (log := log)).
Qed.

Ltac disjoint :=
  let e := fresh "e" in
  let He := fresh "He" in
  intros e He; destruct e; try discriminate He; try reflexivity;
  repeat match goal with
         | c : component |- _ => destruct c
         | t : template |- _ => destruct t
         | l : llm_id |- _ => destruct l
         end;
  try discriminate He; reflexivity.

(** From a run of a quiet computation: its events, none of any kind
    disjoint from its own. *)
Lemma quiet_none {A} p (m : M A) w r w' :
  quiet p m ->
  m w = (r, w') ->
  ss_chat_history w' = ss_chat_history w /\ ss_db w' = ss_db w /\
  exists events,
    trace w' = events ++ trace w /\
    forall k, (forall e, p e = true -> k e = false) -> count k events = 0.
Proof.
  intros Hm Hrun. destruct (Hm w r w' Hrun) as (Hh & Hd & ev & Ht & Hp).
  repeat split; try assumption. exists ev. split; [assumption|].
  intros k Hk. now apply count_disjoint with p.
Qed.

(** C5, as the code has it.  A question whose classification is not
    ["serious"] goes to the responder only: over the turn the verifier and the pipeline are never
    entered and the responder is entered once; when the responder returns,
    its text is the one AI message appended after the question, and when it
    raises, the exception leaves the turn with no AI message. *)
Theorem non_serious_routing q w log h classification w1 :
  truthy q = true ->
  ss_chat_history w = Some log ->
  ss_db w = Some (Some h) ->
  classify_question E q (received q w) = (Ok classification, w1) ->
  classification <> lit "serious" ->
  exists events,
    trace (snd (handle_user_query E (Some q) w)) = events ++ trace w /\
    count (is_call CVerifier) events = 0 /\
    count (is_call CPipeline) events = 0 /\
    count (is_call CNonSerious) events = 1 /\
    (forall response w2,
       get_non_serious_response E q w1 = (Ok response, w2) ->
       fst (handle_user_query E (Some q) w) = Ok tt /\
       ss_chat_history (snd (handle_user_query E (Some q) w))
       = Some (log ++ [HumanMessage q; AIMessage response])) /\
    (forall e w2,
       get_non_serious_response E q w1 = (Raise e, w2) ->
       fst (handle_user_query E (Some q) w) = Raise e /\
       ss_chat_history (snd (handle_user_query E (Some q) w))
       = Some (log ++ [HumanMessage q])).
Proof.
  intros Hq Hlog Hdb Hc Hns.
  rewrite (handle_user_query_route q w Hq Hlog Hdb).
  unfold route. rewrite (bind_ok _ _ _ Hc).
  apply str_eqb_neq in Hns. rewrite Hns.
  destruct (quiet_none _ (classify_question_quiet E q) Hc)
    as (Hh1 & _ & ev1 & Ht1 & Hn1).
  rewrite (received_eq q w Hlog) in Hh1, Ht1. cbn [ss_chat_history trace] in Hh1, Ht1.
  destruct (get_non_serious_response E q w1) as [res w2] eqn:Hres.
  destruct (quiet_none _ (get_non_serious_response_quiet E q) Hres)
    as (Hh2 & _ & ev2 & Ht2 & Hn2).
  destruct (get_non_serious_response_once E _ _ Hres) as (ev2' & Ht2' & Hone).
  assert (ev2' = ev2) by (apply (app_inv_tail (trace w1)); congruence). subst ev2'.
  rewrite Hh1 in Hh2.
  pose proof (Hn1 (is_call CVerifier) ltac:(disjoint)) as Hn1v.
  pose proof (Hn1 (is_call CPipeline) ltac:(disjoint)) as Hn1p.
  pose proof (Hn1 (is_call CNonSerious) ltac:(disjoint)) as Hn1c.
  pose proof (Hn2 (is_call CVerifier) ltac:(disjoint)) as Hn2v.
  pose proof (Hn2 (is_call CPipeline) ltac:(disjoint)) as Hn2p.
  destruct res as [response|e].
  - rewrite (bind_ok _ _ _ Hres), (finish_turn response w2 Hh2).
    cbn [fst snd trace ss_chat_history].
    exists (EMarkdown response :: ev2 ++ ev1 ++ [EMarkdown q]).
    split; [rewrite Ht2, Ht1; simpl; rewrite <- ?app_assoc; reflexivity|].
    rewrite !count_cons, !count_app, !count_cons, !count_nil.
    rewrite Hn1v, Hn1p, Hn1c, Hn2v, Hn2p, Hone. cbn.
    split; [reflexivity|]. split; [reflexivity|]. split; [reflexivity|].
    split.
    + intros r' w2' Heq. injection Heq as <- <-. now rewrite <- app_assoc.
    + intros e w2' Heq. discriminate.
  - rewrite (bind_raise _ _ _ Hres). cbn [fst snd].
    exists (ev2 ++ ev1 ++ [EMarkdown q]).
    split; [rewrite Ht2, Ht1; simpl; rewrite <- ?app_assoc; reflexivity|].
    rewrite !count_app, !count_cons, !count_nil.
    rewrite Hn1v, Hn1p, Hn1c, Hn2v, Hn2p, Hone. cbn.
    split; [reflexivity|]. split; [reflexivity|]. split; [reflexivity|].
    split.
    + intros r' w2' Heq. discriminate.
    + intros e' w2' Heq. injection Heq as <- <-. split; [reflexivity|]. congruence.
Qed.

Lemma forallb_impl (p p' : event -> bool) (l : list event) :
  (forall e, p e = true -> p' e = true) ->
  forallb p l = true -> forallb p' l = true.
Proof.
  intros H. rewrite !forallb_forall. intros Hl e He. apply H, Hl, He.
Qed.

Ltac included :=
  let e := fresh "e" in
  let He := fresh "He" in
  intros e He; destruct e; try discriminate He; try reflexivity;
  repeat match goal with
         | c : component |- _ => destruct c
         | t : template |- _ => destruct t
         | l : llm_id |- _ => destruct l
         end;
  try discriminate He; reflexivity.

(** Up to the verdict the session holds the question as its last message
    and only the classifier, the database's schema dump, the describer and
    the verifier were used. *)
Lemma serious_path_events q w log h relevance w4 :
  ss_chat_history w = Some log ->
  serious_path E q h w relevance w4 ->
  ss_chat_history w4 = Some (log ++ [HumanMessage q]) /\
  ss_db w4 = ss_db w /\
  exists events,
    trace w4 = events ++ trace w /\ forallb before_verdict events = true.
Proof.
  intros Hlog (w1 & si & w2 & d & w3 & Hc & Ht & Hd & Hv).
  destruct (classify_question_quiet E q _ Hc) as (Hh1 & Hd1 & ev1 & Ht1 & Hp1).
  destruct (@table_info_quiet E h _ _ _ Ht) as (Hh2 & Hd2 & ev2 & Ht2 & Hp2).
  destruct (describe_and_save_all_quiet E si _ Hd) as (Hh3 & Hd3 & ev3 & Ht3 & Hp3).
  destruct (verify_schema_relevance_quiet E q d _ Hv) as (Hh4 & Hd4 & ev4 & Ht4 & Hp4).
  rewrite (received_eq q w Hlog) in Hh1, Hd1, Ht1.
  cbn [ss_chat_history ss_db trace] in Hh1, Hd1, Ht1.
  split; [congruence|]. split; [congruence|].
  exists (ev4 ++ ev3 ++ ev2 ++ ev1 ++ [EMarkdown q]).
  split; [rewrite Ht4, Ht3, Ht2, Ht1, <- !app_assoc; reflexivity|].
  rewrite !forallb_app.
  rewrite (forallb_impl of_classifier before_verdict _ ltac:(included) Hp1).
  rewrite (forallb_impl is_table_info before_verdict _ ltac:(included) Hp2).
  rewrite (forallb_impl of_describer before_verdict _ ltac:(included) Hp3).
  rewrite (forallb_impl of_verifier before_verdict _ ltac:(included) Hp4).
  reflexivity.
Qed.

(** A verdict other than ["related"] ends the turn with the rejection. *)
Lemma handle_user_query_not_related q w log h relevance w4 :
  truthy q = true ->
  ss_chat_history w = Some log ->
  ss_db w = Some (Some h) ->
  serious_path E q h w relevance w4 ->
  relevance <> lit "related" ->
  handle_user_query E (Some q) w
  = (Ok tt,
     mkWorld (Some (log ++ [HumanMessage q; AIMessage rejection]))
             (ss_db w4) (store w4) (EMarkdown rejection :: trace w4)).
Proof.
  intros Hq Hlog Hdb Hpath Hrel.
  destruct (serious_path_events Hlog Hpath) as (Hh4 & _).
  destruct Hpath as (w1 & si & w2 & d & w3 & Hc & Ht & Hd & Hv).
  rewrite (handle_user_query_route q w Hq Hlog Hdb). unfold route.
  rewrite (bind_ok _ _ _ Hc), str_eqb_refl.
  rewrite (bind_ok _ _ _ Ht), (bind_ok _ _ _ Hd), (bind_ok _ _ _ Hv).
  apply str_eqb_neq in Hrel. rewrite Hrel.
  rewrite (finish_turn rejection w4 Hh4). now rewrite <- app_assoc.
Qed.

(** The verdict ["related"] hands the turn to the pipeline, with the last
    two messages of the log as its history. *)
Lemma handle_user_query_related q w log h w4 :
  truthy q = true ->
  ss_chat_history w = Some log ->
  ss_db w = Some (Some h) ->
  serious_path E q h w (lit "related") w4 ->
  handle_user_query E (Some q) w
  = bind (generate_response E q h (last_two (log ++ [HumanMessage q])))
         (fun response =>
            bind (st_markdown response)
                 (fun _ => append_message (AIMessage response)))
         w4.
Proof.
  intros Hq Hlog Hdb Hpath.
  destruct (serious_path_events Hlog Hpath) as (Hh4 & _).
  destruct Hpath as (w1 & si & w2 & d & w3 & Hc & Ht & Hd & Hv).
  rewrite (handle_user_query_route q w Hq Hlog Hdb). unfold route.
  rewrite (bind_ok _ _ _ Hc), str_eqb_refl.
  rewrite (bind_ok _ _ _ Ht), (bind_ok _ _ _ Hd), (bind_ok _ _ _ Hv).
  rewrite str_eqb_refl.
  now rewrite (bind_ok _ _ _ (get_chat_history_ok w4 Hh4)).
Qed.

(** C6.  A question classified ["serious"] whose verdict is not
    ["related"]: the turn returns, the AI message appended after the
    question is the rejection text as it stands in the source, and over the
    whole turn the pipeline is not entered and none of its stages runs. *)
Theorem not_related_rejected q w log h relevance w4 :
  truthy q = true ->
  ss_chat_history w = Some log ->
  ss_db w = Some (Some h) ->
  serious_path E q h w relevance w4 ->
  relevance <> lit "related" ->
  exists w' events,
    handle_user_query E (Some q) w = (Ok tt, w') /\
    ss_chat_history w' = Some (log ++ [HumanMessage q; AIMessage rejection]) /\
    trace w' = events ++ trace w /\
    count (is_call CPipeline) events = 0 /\
    count is_sleep events = 0 /\
    count (is_llm LSql) events = 0 /\
    count is_db_run events = 0 /\
    count (is_llm LAnswer) events = 0.
Proof.
  intros Hq Hlog Hdb Hpath Hrel.
  rewrite (handle_user_query_not_related Hq Hlog Hdb Hpath Hrel).
  destruct (serious_path_events Hlog Hpath) as (_ & _ & ev & Ht & Hp).
  eexists. exists (EMarkdown rejection :: ev).
  split; [reflexivity|]. split; [reflexivity|].
  split; [cbn [trace]; now rewrite Ht|].
  rewrite !count_cons. cbn [is_call is_sleep is_llm is_db_run].
  rewrite (count_disjoint before_verdict (is_call CPipeline) ev ltac:(disjoint) Hp).
  rewrite (count_disjoint before_verdict is_sleep ev ltac:(disjoint) Hp).
  rewrite (count_disjoint before_verdict (is_llm LSql) ev ltac:(disjoint) Hp).
  rewrite (count_disjoint before_verdict is_db_run ev ltac:(disjoint) Hp).
  rewrite (count_disjoint before_verdict (is_llm LAnswer) ev ltac:(disjoint) Hp).
  repeat split.
Qed.

Lemma reach_refl p w : reach p w w.
Proof. repeat split. now exists []. Qed.

Lemma reach_step {A} p p' (m : M A) w0 w r w' :
  quiet p' m -> (forall e, p' e = true -> p e = true) ->
  reach p w0 w -> m w = (r, w') -> reach p w0 w'.
Proof.
  intros Hm Hsub (Hh & Hd & ev & Ht & Hp) Hrun.
  destruct (Hm w r w' Hrun) as (Hh' & Hd' & ev' & Ht' & Hp').
  split; [congruence|]. split; [congruence|].
  exists (ev' ++ ev). split; [now rewrite Ht', Ht, app_assoc|].
  rewrite forallb_app, Hp, (forallb_impl p' p _ Hsub Hp'). reflexivity.
Qed.

Lemma reach_emit p w0 w e :
  p e = true -> reach p w0 w -> reach p w0 (emit e w).
Proof.
  intros He (Hh & Hd & ev & Ht & Hp).
  split; [exact Hh|]. split; [exact Hd|].
  exists (e :: ev). cbn [emit trace forallb]. now rewrite Ht, He, Hp.
Qed.

Lemma generate_response_quiet q h hist :
  quiet of_pipeline (generate_response E q h hist).
Proof.
  intros w r w' H.
  destruct (generate_response_events E _ _ _ _ H)
    as (_ & Hh & Hd & ev & Ht & Hp & _).
  repeat split; try assumption. now exists ev.
Qed.

Lemma table_info_world h w r w' :
  table_info E h w = (r, w') -> w' = emit (ETableInfo h) w.
Proof. unfold table_info. intros H. now injection H. Qed.

Lemma count_not_responder events :
  forallb not_responder events = true -> count (is_call CNonSerious) events = 0.
Proof.
  apply count_disjoint. intros e He. unfold not_responder in He.
  now destruct (is_call CNonSerious e).
Qed.

Lemma reach_not_responder {A} p' (m : M A) w0 w r w' :
  quiet p' m -> (forall e, p' e = true -> not_responder e = true) ->
  reach not_responder w0 w -> m w = (r, w') -> reach not_responder w0 w'.
Proof. apply reach_step. Qed.

Lemma not_responder_markdown text : not_responder (EMarkdown text) = true.
Proof. reflexivity. Qed.

(** The serious branch, whatever happens in it: it opens with the
    database's schema dump, never enters the responder, leaves the handle
    alone, and appends one AI message exactly when it returns. *)
Lemma serious_events q h w0 l w1 r w' :
  ss_chat_history w0 = Some l ->
  classify_question E q w0 = (Ok (lit "serious"), w1) ->
  route E q h w0 = (r, w') ->
  ss_db w' = ss_db w0 /\
  match r with
  | Ok _ => exists a, ss_chat_history w' = Some (l ++ [AIMessage a])
  | Raise _ => ss_chat_history w' = Some l
  end /\
  exists events,
    trace w' = events ++ ETableInfo h :: trace w1 /\
    forallb not_responder events = true.
Proof.
  intros Hl Hc Hrun. unfold route in Hrun.
  rewrite (bind_ok _ _ _ Hc), str_eqb_refl in Hrun.
  destruct (classify_question_quiet E q _ Hc) as (Hh1 & Hd1 & _).
  destruct (table_info E h w1) as [rt w2] eqn:Ht.
  pose proof (table_info_world Ht) as Hw2.
  assert (Htr2 : trace w2 = ETableInfo h :: trace w1) by now rewrite Hw2.
  assert (Hh2 : ss_chat_history w2 = Some l) by (rewrite Hw2; cbn; congruence).
  assert (Hd2 : ss_db w2 = ss_db w0) by (rewrite Hw2; cbn; congruence).
  pose proof (reach_refl not_responder w2) as R2.
  assert (Hend : forall w, reach not_responder w2 w ->
            ss_db w = ss_db w0 /\ ss_chat_history w = Some l /\
            exists events, trace w = events ++ ETableInfo h :: trace w1 /\
                           forallb not_responder events = true).
  { intros w (Hh & Hd & ev & Hte & Hp). rewrite Htr2 in Hte.
    split; [congruence|]. split; [congruence|]. now exists ev. }
  destruct rt as [si|e];
    [rewrite (bind_ok _ _ _ Ht) in Hrun
    |rewrite (bind_raise _ _ _ Ht) in Hrun; injection Hrun as <- <-;
     destruct (Hend _ R2) as (? & ? & ?); now repeat split].
  destruct (describe_and_save_all E si w2) as [[d|e] w3] eqn:Hd;
    pose proof (reach_not_responder (describe_and_save_all_quiet E si)
                  ltac:(included) R2 Hd) as R3;
    [rewrite (bind_ok _ _ _ Hd) in Hrun
    |rewrite (bind_raise _ _ _ Hd) in Hrun; injection Hrun as <- <-;
     destruct (Hend _ R3) as (? & ? & ?); now repeat split].
  destruct (verify_schema_relevance E q d w3) as [[rel|e] w4] eqn:Hv;
    pose proof (reach_not_responder (verify_schema_relevance_quiet E q d)
                  ltac:(included) R3 Hv) as R4;
    [rewrite (bind_ok _ _ _ Hv) in Hrun
    |rewrite (bind_raise _ _ _ Hv) in Hrun; injection Hrun as <- <-;
     destruct (Hend _ R4) as (? & ? & ?); now repeat split].
  destruct (Hend _ R4) as (Hd4 & Hh4 & _).
  destruct (eqb rel (lit "related")).
  - rewrite (bind_ok _ _ _ (get_chat_history_ok w4 Hh4)) in Hrun.
    destruct (generate_response E q h (last_two l) w4) as [res w5] eqn:Hg.
    pose proof (reach_not_responder (generate_response_quiet q h (last_two l))
                  ltac:(included) R4 Hg) as R5.
    destruct (generate_response_events E _ _ _ _ Hg) as ((text & ->) & _).
    destruct (Hend _ R5) as (Hd5 & Hh5 & _).
    rewrite (bind_ok _ _ _ Hg), (finish_turn text w5 Hh5) in Hrun.
    injection Hrun as <- <-.
    destruct (Hend _ (reach_emit (EMarkdown text) (not_responder_markdown text) R5))
      as (_ & _ & Hev).
    split; [exact Hd5|]. split; [now exists text|]. exact Hev.
  - rewrite (finish_turn rejection w4 Hh4) in Hrun.
    injection Hrun as <- <-.
    destruct (Hend _ (reach_emit (EMarkdown rejection)
                        (not_responder_markdown rejection) R4))
      as (_ & _ & Hev).
    split; [exact Hd4|]. split; [now exists rejection|]. exact Hev.
Qed.

(** The other branch: the responder is entered once; no schema dump, no
    verifier, no pipeline. *)
Lemma non_serious_events q h w0 l c w1 r w' :
  ss_chat_history w0 = Some l ->
  classify_question E q w0 = (Ok c, w1) ->
  c <> lit "serious" ->
  route E q h w0 = (r, w') ->
  ss_db w' = ss_db w0 /\
  match r with
  | Ok _ => exists a, ss_chat_history w' = Some (l ++ [AIMessage a])
  | Raise _ => ss_chat_history w' = Some l
  end /\
  exists events,
    trace w' = events ++ trace w0 /\
    count (is_call CNonSerious) events = 1 /\
    count is_table_info events = 0 /\
    count (is_call CVerifier) events = 0 /\
    count (is_call CPipeline) events = 0.
Proof.
  intros Hl Hc Hns Hrun. unfold route in Hrun.
  apply str_eqb_neq in Hns. rewrite (bind_ok _ _ _ Hc), Hns in Hrun.
  destruct (quiet_none _ (classify_question_quiet E q) Hc)
    as (Hh1 & Hd1 & ev1 & Ht1 & Hn1).
  destruct (get_non_serious_response E q w1) as [res w2] eqn:Hres.
  destruct (quiet_none _ (get_non_serious_response_quiet E q) Hres)
    as (Hh2 & Hd2 & ev2 & Ht2 & Hn2).
  destruct (get_non_serious_response_once E _ _ Hres) as (ev2' & Ht2' & Hone).
  assert (ev2' = ev2) by (apply (app_inv_tail (trace w1)); congruence). subst ev2'.
  pose proof (Hn1 (is_call CNonSerious) ltac:(disjoint)) as Hn1c.
  pose proof (Hn1 is_table_info ltac:(disjoint)) as Hn1t.
  pose proof (Hn1 (is_call CVerifier) ltac:(disjoint)) as Hn1v.
  pose proof (Hn1 (is_call CPipeline) ltac:(disjoint)) as Hn1p.
  pose proof (Hn2 is_table_info ltac:(disjoint)) as Hn2t.
  pose proof (Hn2 (is_call CVerifier) ltac:(disjoint)) as Hn2v.
  pose proof (Hn2 (is_call CPipeline) ltac:(disjoint)) as Hn2p.
  assert (Hh : ss_chat_history w2 = Some l) by congruence.
  destruct res as [response|e].
  - rewrite (bind_ok _ _ _ Hres), (finish_turn response w2 Hh) in Hrun.
    injection Hrun as <- <-. cbn [ss_db ss_chat_history trace].
    split; [congruence|]. split; [now exists response|].
    exists (EMarkdown response :: ev2 ++ ev1).
    split; [rewrite Ht2, Ht1; simpl; rewrite <- ?app_assoc; reflexivity|].
    rewrite !count_cons, !count_app.
    rewrite Hn1c, Hn1t, Hn1v, Hn1p, Hn2t, Hn2v, Hn2p, Hone. now cbn.
  - rewrite (bind_raise _ _ _ Hres) in Hrun. injection Hrun as <- <-.
    split; [congruence|]. split; [exact Hh|].
    exists (ev2 ++ ev1).
    split; [rewrite Ht2, Ht1; simpl; rewrite <- ?app_assoc; reflexivity|].
    rewrite !count_app.
    rewrite Hn1c, Hn1t, Hn1v, Hn1p, Hn2t, Hn2v, Hn2p, Hone. now cbn.
Qed.

(** A routed question leaves the handle as it was, and the log longer by
    one AI message when the turn returns and unchanged when it raises. *)
Lemma route_outcome q h w0 l r w' :
  ss_chat_history w0 = Some l ->
  route E q h w0 = (r, w') ->
  ss_db w' = ss_db w0 /\
  match r with
  | Ok _ => exists a, ss_chat_history w' = Some (l ++ [AIMessage a])
  | Raise _ => ss_chat_history w' = Some l
  end.
Proof.
  intros Hl Hrun.
  destruct (classify_question E q w0) as [[c|e] w1] eqn:Hc.
  - destruct (eqb c (lit "serious")) eqn:Hs.
    + apply str_eqb_eq in Hs. subst c.
      edestruct serious_events as (? & ? & _);
        [exact Hl|exact Hc|exact Hrun|]. now split.
    + apply str_eqb_neq in Hs.
      edestruct non_serious_events as (? & ? & _);
        [exact Hl|exact Hc|exact Hs|exact Hrun|]. now split.
  - destruct (classify_question_quiet E q _ Hc) as (Hh1 & Hd1 & _).
    unfold route in Hrun. rewrite (bind_raise _ _ _ Hc) in Hrun.
    injection Hrun as <- <-. split; congruence.
Qed.

(** C7.  The classifier returns the model's reply stripped and lowercased,
    and the turn takes the serious branch (which opens with the database's
    schema dump) exactly when that text is ["serious"]; with any other text
    the responder is entered, once, and neither the schema dump, the
    verifier nor the pipeline runs. *)
Theorem classifier_normalises_and_routes q w log h prompt_text content :
  truthy q = true ->
  ss_chat_history w = Some log ->
  ss_db w = Some (Some h) ->
  format_prompt E TClassify [("question"%string, VStr q)] = Ok prompt_text ->
  llm_invoke E LClassifier (3 + tick w) prompt_text = Ok content ->
  let classification := py_lower E (strip content) in
  fst (classify_question E q (received q w)) = Ok classification /\
  exists events,
    trace (snd (handle_user_query E (Some q) w)) = events ++ trace w /\
    (classification = lit "serious" <-> In (ETableInfo h) events) /\
    (classification <> lit "serious" <-> count (is_call CNonSerious) events = 1) /\
    (classification <> lit "serious" ->
       count is_table_info events = 0 /\
       count (is_call CVerifier) events = 0 /\
       count (is_call CPipeline) events = 0).
Proof.
  intros Hq Hlog Hdb Hfmt Hllm classification.
  assert (Hc : exists w1, classify_question E q (received q w)
                          = (Ok classification, w1)).
  { rewrite (received_eq q w Hlog).
    unfold classify_question, bind, log_event, render, invoke, ret, tick.
    cbn [emit trace length]. rewrite Hfmt.
    change (S (S (S (length (trace w))))) with (3 + tick w).
    rewrite Hllm. eexists. reflexivity. }
  destruct Hc as (w1 & Hc). split; [now rewrite Hc|].
  rewrite (handle_user_query_route q w Hq Hlog Hdb).
  destruct (route E q h (received q w)) as [r w'] eqn:Hrun. cbn [snd].
  assert (Hl : ss_chat_history (received q w) = Some (log ++ [HumanMessage q]))
    by now rewrite (received_eq q w Hlog).
  assert (Htr : trace (received q w) = EMarkdown q :: trace w)
    by now rewrite (received_eq q w Hlog).
  destruct (eqb classification (lit "serious")) eqn:Hs.
  - apply str_eqb_eq in Hs. rewrite Hs in *.
    edestruct serious_events as (_ & _ & ev & Ht & Hp);
      [exact Hl|exact Hc|exact Hrun|].
    destruct (classify_question_quiet E q _ Hc) as (_ & _ & ev1 & Ht1 & _).
    exists (ev ++ ETableInfo h :: ev1 ++ [EMarkdown q]).
    split; [rewrite Ht, Ht1, Htr, <- !app_assoc; simpl;
            now rewrite <- !app_assoc|].
    split; [split; [intros _; apply in_or_app; right; now left|reflexivity]|].
    split; [|intros H; now contradiction H].
    split; [intros H; now contradiction H|].
    intros Hone. exfalso.
    rewrite count_app, count_cons, count_app, count_cons, count_nil in Hone.
    rewrite (count_not_responder ev Hp) in Hone.
    rewrite (count_disjoint of_classifier (is_call CNonSerious) ev1
               ltac:(disjoint)) in Hone; [discriminate|].
    destruct (classify_question_quiet E q _ Hc) as (_ & _ & ev1' & Ht1' & Hp1).
    assert (ev1' = ev1) by (apply (app_inv_tail (trace (received q w))); congruence).
    now subst.
  - apply str_eqb_neq in Hs.
    edestruct non_serious_events as (_ & _ & ev & Ht & Hone & Hti & Hv & Hp);
      [exact Hl|exact Hc|exact Hs|exact Hrun|].
    exists (ev ++ [EMarkdown q]).
    split; [now rewrite Ht, Htr, <- app_assoc|].
    rewrite !count_app, !count_cons, !count_nil, Hone, Hti, Hv, Hp. cbn.
    split; [split; [intros H; now contradiction H|]|].
    + intros Hin. exfalso. apply in_app_or in Hin as [Hin|[Hin|[]]];
        [|discriminate].
      assert (Hz : count is_table_info ev <> 0); [|now apply Hz].
      clear - Hin. unfold count. induction ev as [|e ev IH]; [destruct Hin|].
      destruct Hin as [->|Hin]; simpl; [discriminate|].
      destruct (is_table_info e); simpl; [discriminate|now apply IH].
    + split; [split; [reflexivity|intros _; exact Hs]|]. now intros _.
Qed.

Lemma generate_response_raise q h hist w e w1 :
  chain E h (chain_input q hist) (at_invoke q h hist w) = (Raise e, w1) ->
  generate_response E q h hist w
  = (Ok error_message, emit (EError error_message) w1).
Proof.
  intros H.
  unfold generate_response, try_except, sleep, st_error, log_event, ret.
  unfold bind at 1 2.
  change (chain E h (chain_input q hist) (at_invoke q h hist w)) with
    (chain E h [("question"%string, VStr q); ("chat_history"%string, VMsgs hist)]
       (emit (ESleep 10)
          (emit (ECall CPipeline [("user_query"%string, VStr q);
                                  ("db"%string, VDb h);
                                  ("chat_history"%string, VMsgs hist)]) w))) in H.
  now rewrite H.
Qed.

(** C1.  The failure boundary of the pipeline.  (1) When [chain.invoke]
    raises, [generate_response] returns the fixed message, after showing
    it with [st.error] and without running anything again.  (2) Whatever
    happens, [generate_response] returns a text, and it sleeps once and
    runs each stage (description, SQL model, query, answer model) at most
    once.  (3) In a turn that reaches the pipeline, a raising
    [chain.invoke] ends the turn normally with the fixed message appended
    as the AI message after the question. *)
Theorem pipeline_failure_boundary :
  (forall q h hist w e w1,
     chain E h (chain_input q hist) (at_invoke q h hist w) = (Raise e, w1) ->
     generate_response E q h hist w
     = (Ok error_message, emit (EError error_message) w1))
  /\
  (forall q h hist w,
     (exists text, fst (generate_response E q h hist w) = Ok text) /\
     exists events,
       trace (snd (generate_response E q h hist w)) = events ++ trace w /\
       count is_sleep events = 1 /\
       count (is_call CDescriber) events <= 1 /\
       count (is_llm LSql) events <= 1 /\
       count is_db_run events <= 1 /\
       count (is_llm LAnswer) events <= 1)
  /\
  (forall q w log h w4 e w5,
     truthy q = true ->
     ss_chat_history w = Some log ->
     ss_db w = Some (Some h) ->
     serious_path E q h w (lit "related") w4 ->
     chain E h (chain_input q (last_two (log ++ [HumanMessage q])))
       (at_invoke q h (last_two (log ++ [HumanMessage q])) w4) = (Raise e, w5) ->
     fst (handle_user_query E (Some q) w) = Ok tt /\
     ss_chat_history (snd (handle_user_query E (Some q) w))
     = Some (log ++ [HumanMessage q; AIMessage error_message])).
Proof.
  split; [intros; eapply generate_response_raise; eassumption|]. split.
  - intros q h hist w.
    destruct (generate_response E q h hist w) as [r w'] eqn:Hg.
    destruct (generate_response_events E _ _ _ _ Hg)
      as ((text & ->) & _ & _ & ev & Ht & _ & _ & Hs & _ & Hd & _ & Hq & Hr & Ha & _).
    split; [now exists text|]. exists ev. cbn [snd]. now repeat split.
  - intros q w log h w4 e w5 Hq Hlog Hdb Hpath Hraise.
    rewrite (handle_user_query_related Hq Hlog Hdb Hpath).
    pose proof (generate_response_raise _ _ _ _ Hraise) as Hg.
    destruct (generate_response_quiet _ _ _ _ Hg) as (Hh & _).
    destruct (serious_path_events Hlog Hpath) as (Hh4 & _).
    rewrite Hh4 in Hh.
    rewrite (bind_ok _ _ _ Hg), (finish_turn error_message _ Hh).
    cbn [fst snd ss_chat_history]. split; [reflexivity|].
    now rewrite <- app_assoc.
Qed.

(** C8 fails on the code: in every run of the pipeline the description is
    asked for at most once, and each formatting of the answer template
    binds [schema] to the function object [get_schema], not to a text. *)
Theorem answer_schema_is_not_the_description q h hist w :
  exists events,
    trace (snd (generate_response E q h hist w)) = events ++ trace w /\
    count (is_call CDescriber) events <= 1 /\
    forallb answer_schema_is_function events = true.
Proof.
  destruct (generate_response E q h hist w) as [r w'] eqn:Hg.
  destruct (generate_response_events E _ _ _ _ Hg)
    as (_ & _ & _ & ev & Ht & _ & _ & _ & _ & Hd & _ & _ & _ & _ & Hf & _).
  exists ev. cbn [snd]. now repeat split.
Qed.

Lemma last_two_length {A} (l : list A) : length (last_two l) = Nat.min 2 (length l).
Proof. unfold last_two. rewrite length_skipn. lia. Qed.

Lemma last_two_is_suffix {A} (l : list A) :
  l = firstn (length l - 2) l ++ last_two l.
Proof. unfold last_two. now rewrite firstn_skipn. Qed.

Lemma last_two_whole {A} (l : list A) : last_two l = l <-> length l <= 2.
Proof.
  split.
  - intros H. apply (f_equal (@length A)) in H.
    rewrite last_two_length in H. lia.
  - intros H. unfold last_two.
    replace (length l - 2) with 0 by lia. reflexivity.
Qed.

(** C9, as the code has it.  When the verdict is ["related"] the pipeline
    is entered once, with [chat_history[-2:]] of the log at that point: a
    suffix of the log of at most two messages, of exactly two when the log
    has two, and equal to the whole log exactly when the log held at most
    one message before the question (the first turn after the greeting). *)
Theorem pipeline_history_suffix q w log h w4 :
  truthy q = true ->
  ss_chat_history w = Some log ->
  ss_db w = Some (Some h) ->
  serious_path E q h w (lit "related") w4 ->
  let full_log := log ++ [HumanMessage q] in
  let suffix := last_two full_log in
  ss_chat_history w4 = Some full_log /\
  (exists events,
     trace (snd (handle_user_query E (Some q) w)) = events ++ trace w4 /\
     count (is_call CPipeline) events = 1 /\
     In (pipeline_call q h suffix) events) /\
  (exists older, full_log = older ++ suffix) /\
  length suffix = Nat.min 2 (length full_log) /\
  (suffix = full_log <-> length log <= 1).
Proof.
  intros Hq Hlog Hdb Hpath full_log suffix.
  destruct (serious_path_events Hlog Hpath) as (Hh4 & _).
  split; [exact Hh4|]. split.
  - rewrite (handle_user_query_related Hq Hlog Hdb Hpath). fold full_log suffix.
    destruct (generate_response E q h suffix w4) as [r w5] eqn:Hg.
    destruct (generate_response_events E _ _ _ _ Hg)
      as ((text & ->) & Hh5 & _ & ev & Ht & _ & Hone & _ & _ & _ & _ & _ & _ & _ & _ & Hin).
    rewrite Hh4 in Hh5.
    rewrite (bind_ok _ _ _ Hg), (finish_turn text w5 Hh5). cbn [snd trace].
    exists (EMarkdown text :: ev). split; [now rewrite Ht|].
    split; [now rewrite count_cons, Hone|]. now right.
  - split; [eexists; apply last_two_is_suffix|].
    split; [apply last_two_length|].
    unfold suffix. rewrite last_two_whole. unfold full_log.
    rewrite length_app. cbn [length]. lia.
Qed.

End Turn.

(* ===================================================================== *)
(** ** The conversation log over a session *)
(* ===================================================================== *)

Section Session.

Variable E : Env.

(** The first execution of the script puts the greeting in the log; later
    ones leave the log alone. *)
Lemma init_session_state_log w :
  ss_chat_history (snd (init_session_state w))
  = Some match ss_chat_history w with
         | None => [AIMessage greeting]
         | Some log => log
         end.
Proof. unfold init_session_state. cbn. now destruct (ss_chat_history w). Qed.

Lemma display_messages_run l w :
  exists w',
    display_messages l w = (Ok tt, w') /\
    ss_chat_history w' = ss_chat_history w /\ ss_db w' = ss_db w.
Proof.
  revert w. induction l as [|m l IH]; intros w.
  - exists w. now repeat split.
  - destruct (IH (emit (EMarkdown match m with
                                 | AIMessage c | HumanMessage c => c
                                 end) w)) as (w' & Hrun & Hh & Hd).
    exists w'. split; [|now split].
    destruct m; cbn [display_messages]; unfold bind, st_markdown, log_event;
      exact Hrun.
Qed.

(** One execution of the script on a submitted question, the handle set:
    the question is appended, and one AI message after it exactly when the
    script returns. *)
Lemma main_turn q w log h r w' :
  truthy q = true ->
  ss_chat_history w = Some log ->
  ss_db w = Some (Some h) ->
  main E false (Some q) w = (r, w') ->
  ss_db w' = Some (Some h) /\
  match r with
  | Ok _ => exists a,
      ss_chat_history w' = Some (log ++ [HumanMessage q; AIMessage a])
  | Raise _ => ss_chat_history w' = Some (log ++ [HumanMessage q])
  end.
Proof.
  intros Hq Hlog Hdb Hrun.
  unfold main, run, init_session_state, sidebar, display_chat_history in Hrun.
  unfold bind at 1 2 3 in Hrun. unfold ret at 1 in Hrun.
  rewrite Hlog, Hdb in Hrun.
  set (w0 := mkWorld (Some log) (Some (Some h)) (store w) (trace w)) in Hrun.
  rewrite (bind_ok _ _ _ (get_chat_history_ok w0 (log := log) eq_refl)) in Hrun.
  destruct (display_messages_run log w0) as (wd & Hdisp & Hhd & Hdd).
  rewrite Hdisp in Hrun.
  assert (Hlogd : ss_chat_history wd = Some log) by now rewrite Hhd.
  assert (Hdbd : ss_db wd = Some (Some h)) by now rewrite Hdd.
  rewrite (handle_user_query_route E q wd Hq Hlogd Hdbd) in Hrun.
  assert (Hl : ss_chat_history (received q wd) = Some (log ++ [HumanMessage q]))
    by now rewrite (received_eq q wd Hlogd).
  assert (Hd : ss_db (received q wd) = Some (Some h))
    by now rewrite (received_eq q wd Hlogd).
  edestruct route_outcome as (Hdb' & Hout); [exact Hl|exact Hrun|].
  split; [congruence|].
  destruct r as [u|e]; [|exact Hout].
  destruct Hout as (reply & Ha). exists reply. now rewrite Ha, <- app_assoc.
Qed.

Lemma exchanges_length qs replies :
  length replies = length qs ->
  length (exchanges qs replies) = 2 * length qs.
Proof.
  revert replies. induction qs as [|q qs IH]; intros [|r replies] H;
    try discriminate; [reflexivity|].
  cbn [exchanges length]. rewrite IH by (cbn in H; lia). lia.
Qed.

Lemma turns_log qs : forall w log h w',
  Forall (fun q => truthy q = true) qs ->
  ss_chat_history w = Some log ->
  ss_db w = Some (Some h) ->
  turns E qs w = (Ok tt, w') ->
  exists replies,
    length replies = length qs /\
    ss_chat_history w' = Some (log ++ exchanges qs replies).
Proof.
  induction qs as [|q qs IH]; intros w log h w' Hqs Hlog Hdb Hrun.
  - injection Hrun as <-. exists []. split; [reflexivity|].
    now rewrite app_nil_r.
  - inversion Hqs as [|? ? Hq Hrest]; subst.
    cbn [turns] in Hrun. unfold bind at 1 in Hrun.
    destruct (main E false (Some q) w) as [[[]|e] w1] eqn:Hmain;
      [|discriminate].
    destruct (@main_turn q w log h _ _ Hq Hlog Hdb Hmain) as (Hdb1 & reply & Hlog1).
    destruct (IH _ _ _ _ Hrest Hlog1 Hdb1 Hrun) as (replies & Hlen & Hfinal).
    exists (reply :: replies). split; [cbn; now rewrite Hlen|].
    rewrite Hfinal, <- app_assoc. reflexivity.
Qed.

(** C4, as the code has it.  From the greeting, a sequence of N submitted
    questions, each handled while the handle is set and each turn
    returning, leaves the greeting followed by the N questions in the order
    asked, each directly followed by its one AI reply: [1 + 2N] messages. *)
Theorem log_after_answered_turns qs w h w' :
  Forall (fun q => truthy q = true) qs ->
  ss_chat_history w = Some [AIMessage greeting] ->
  ss_db w = Some (Some h) ->
  turns E qs w = (Ok tt, w') ->
  exists log replies,
    ss_chat_history w' = Some log /\
    length replies = length qs /\
    log = AIMessage greeting :: exchanges qs replies /\
    length log = 1 + 2 * length qs.
Proof.
  intros Hqs Hlog Hdb Hrun.
  edestruct turns_log as (replies & Hlen & Hfinal);
    [exact Hqs|exact Hlog|exact Hdb|exact Hrun|].
  exists (AIMessage greeting :: exchanges qs replies), replies.
  split; [exact Hfinal|]. split; [exact Hlen|]. split; [reflexivity|].
  cbn [length]. now rewrite exchanges_length.
Qed.

End Session.

(* ===================================================================== *)
(** ** The theorems at work on the scripted environment *)
(* ===================================================================== *)

Example strip_lower_serious (ul : str -> str) :
  lower ul (strip ([32; 10] ++ lit "Serious" ++ [13; 10]))%N = lit "serious".
Proof. reflexivity. Qed.

Example strip_lower_with_period (ul : str -> str) :
  lower ul (strip (lit "Serious.")) <> lit "serious".
Proof. discriminate. Qed.

Ltac by_eval := vm_compute; reflexivity.

Ltac eval_neq := let H := fresh in intros H; vm_compute in H; discriminate H.

Lemma script_serious_path E relevance :
  classify_question E Script.question (received Script.question Script.connected)
  = (Ok (lit "serious"), Script.classified E Script.question Script.connected) ->
  table_info E 1 (Script.classified E Script.question Script.connected)
  = (Ok Script.schema, Script.dumped E Script.question Script.connected) ->
  describe_and_save_all E Script.schema
    (Script.dumped E Script.question Script.connected)
  = (Ok Script.description, Script.described E Script.question Script.connected) ->
  verify_schema_relevance E Script.question Script.description
    (Script.described E Script.question Script.connected)
  = (Ok relevance, Script.verdict E Script.question Script.connected) ->
  serious_path E Script.question 1 Script.connected relevance
    (Script.verdict E Script.question Script.connected).
Proof.
  intros H1 H2 H3 H4.
  exists (Script.classified E Script.question Script.connected), Script.schema,
    (Script.dumped E Script.question Script.connected), Script.description,
    (Script.described E Script.question Script.connected).
  now repeat split.
Qed.

Lemma handle_user_query_no_db_witness :
  exists w' events,
    handle_user_query Script.jokes (Some Script.joke) (Script.session None None)
    = (Ok tt, w') /\
    ss_chat_history w' = Some ([AIMessage greeting] ++ [HumanMessage Script.joke]) /\
    trace w' = events ++ [] /\
    (forall c, count (is_call c) events = 0) /\
    count is_any_llm events = 0 /\
    events = [EMarkdown Script.joke].
Proof.
  apply (@handle_user_query_no_db Script.jokes Script.joke
           (Script.session None None) [AIMessage greeting]); by_eval.
Defined.

Lemma non_serious_routing_witness :
  exists events,
    trace (snd (handle_user_query Script.jokes (Some Script.joke) Script.connected))
    = events ++ [] /\
    count (is_call CVerifier) events = 0 /\
    count (is_call CPipeline) events = 0 /\
    count (is_call CNonSerious) events = 1.
Proof.
  destruct (@non_serious_routing Script.jokes Script.joke Script.connected
              [AIMessage greeting] 1 (lit "non-serious")
              (Script.classified Script.jokes Script.joke Script.connected))
    as (events & Ht & Hv & Hp & Hn & _).
  - by_eval.
  - by_eval.
  - by_eval.
  - by_eval.
  - eval_neq.
  - exists events. repeat split; assumption.
Defined.

Lemma not_related_rejected_witness :
  exists w' events,
    handle_user_query Script.unrelated (Some Script.question) Script.connected
    = (Ok tt, w') /\
    ss_chat_history w'
    = Some ([AIMessage greeting] ++ [HumanMessage Script.question; AIMessage rejection]) /\
    trace w' = events ++ [] /\
    count (is_call CPipeline) events = 0 /\
    count is_sleep events = 0 /\
    count (is_llm LSql) events = 0 /\
    count is_db_run events = 0 /\
    count (is_llm LAnswer) events = 0.
Proof.
  apply (@not_related_rejected Script.unrelated Script.question Script.connected
           [AIMessage greeting] 1 (lit "not related")
           (Script.verdict Script.unrelated Script.question Script.connected)).
  - by_eval.
  - by_eval.
  - by_eval.
  - apply script_serious_path; by_eval.
  - eval_neq.
Defined.

Lemma classifier_normalises_and_routes_witness :
  fst (classify_question Script.unrelated Script.question
         (received Script.question Script.connected))
  = Ok (lit "serious").
Proof.
  apply (@classifier_normalises_and_routes Script.unrelated Script.question
           Script.connected [AIMessage greeting] 1
           (Script.prompt_text TClassify) (lit " Serious ")); by_eval.
Defined.

Lemma pipeline_history_suffix_witness :
  exists events,
    trace (snd (handle_user_query Script.answers (Some Script.question)
                  Script.connected))
    = events ++ trace (Script.verdict Script.answers Script.question
                         Script.connected) /\
    count (is_call CPipeline) events = 1 /\
    In (pipeline_call Script.question 1
          (last_two ([AIMessage greeting] ++ [HumanMessage Script.question])))
       events.
Proof.
  apply (@pipeline_history_suffix Script.answers Script.question Script.connected
           [AIMessage greeting] 1
           (Script.verdict Script.answers Script.question Script.connected)).
  - by_eval.
  - by_eval.
  - by_eval.
  - apply script_serious_path; by_eval.
Defined.

Lemma pipeline_failure_boundary_witness :
  fst (handle_user_query Script.query_fails (Some Script.question) Script.connected)
  = Ok tt /\
  ss_chat_history
    (snd (handle_user_query Script.query_fails (Some Script.question)
            Script.connected))
  = Some ([AIMessage greeting] ++ [HumanMessage Script.question;
                                   AIMessage error_message]).
Proof.
  apply (proj2 (proj2 (pipeline_failure_boundary Script.query_fails))
           Script.question Script.connected [AIMessage greeting] 1
           (Script.verdict Script.query_fails Script.question Script.connected)
           (Exception (lit "Table 'dimemployee' doesn't exist"))
           (snd (chain Script.query_fails 1
                   (chain_input Script.question
                      (last_two ([AIMessage greeting] ++ [HumanMessage Script.question])))
                   (at_invoke Script.question 1
                      (last_two ([AIMessage greeting] ++ [HumanMessage Script.question]))
                      (Script.verdict Script.query_fails Script.question
                         Script.connected))))).
  - by_eval.
  - by_eval.
  - by_eval.
  - apply script_serious_path; by_eval.
  - by_eval.
Defined.

Lemma log_after_answered_turns_witness :
  exists log replies,
    ss_chat_history
      (snd (turns Script.jokes [Script.joke; Script.question] Script.connected))
    = Some log /\
    length replies = 2 /\
    log = AIMessage greeting :: exchanges [Script.joke; Script.question] replies /\
    length log = 1 + 2 * 2.
Proof.
  apply (@log_after_answered_turns Script.jokes [Script.joke; Script.question]
           Script.connected 1).
  - repeat constructor.
  - by_eval.
  - by_eval.
  - by_eval.
Defined.

(** C4 as stated fails: a question submitted before any connection is a
    turn that ends, and the log then holds two messages, not three. *)
Lemma turn_without_handle_adds_one_message :
  exists w',
    turns Script.jokes [Script.joke] (Script.session None None) = (Ok tt, w') /\
    ss_chat_history w' = Some [AIMessage greeting; HumanMessage Script.joke] /\
    length [AIMessage greeting; HumanMessage Script.joke] <> 1 + 2 * 1.
Proof.
  exists (snd (turns Script.jokes [Script.joke] (Script.session None None))).
  split; [by_eval|]. split; [by_eval|]. discriminate.
Qed.

(** C5 as stated fails when the responder's model raises: the responder
    was entered once, the exception leaves the turn, and the log holds the
    question and no AI message for it. *)
Lemma responder_failure_leaves_no_ai_message :
  exists w',
    fst (classify_question Outage.responder_down Script.joke
           (received Script.joke Script.connected))
    = Ok (lit "non-serious") /\
    handle_user_query Outage.responder_down (Some Script.joke) Script.connected
    = (Raise Outage.quota, w') /\
    ss_chat_history w' = Some [AIMessage greeting; HumanMessage Script.joke] /\
    count (is_call CNonSerious) (trace w') = 1.
Proof.
  exists (snd (handle_user_query Outage.responder_down (Some Script.joke)
                 Script.connected)).
  split; [by_eval|]. split; [by_eval|]. split; by_eval.
Qed.

(** C9 as stated fails on the first turn: the log then is the greeting and
    the question, and the history handed to the pipeline is that whole
    log. *)
Lemma first_turn_history_is_the_full_log :
  let full_log := [AIMessage greeting; HumanMessage Script.question] in
  ss_chat_history (received Script.question Script.connected) = Some full_log /\
  In (pipeline_call Script.question 1 full_log)
     (trace (snd (handle_user_query Script.answers (Some Script.question)
                    Script.connected))).
Proof.
  split; [by_eval|].
  vm_compute. repeat first [left; reflexivity | right].
Qed.

(** C8 at work: a pipeline run in which every stage succeeds asks for the
    description once, and formats the answer template with [schema] bound
    to the function [get_schema]. *)
Example answer_prompt_of_a_successful_run :
  let hist := [AIMessage greeting; HumanMessage Script.question] in
  let events := trace (snd (generate_response Script.answers Script.question 1
                              hist Script.connected)) in
  fst (generate_response Script.answers Script.question 1 hist Script.connected)
  = Ok (lit "There are 296 employees.") /\
  count (is_call CDescriber) events = 1 /\
  In (EPrompt TAnswer
        [("question"%string, VStr Script.question);
         ("chat_history"%string, VMsgs hist);
         ("query"%string, VStr (lit "SELECT COUNT(*) FROM dimEmployee"));
         ("schema"%string, VFun "get_schema");
         ("response"%string, VStr (lit "[(296,)]"))])
     events.
Proof.
  split; [by_eval|]. split; [by_eval|].
  vm_compute. repeat first [left; reflexivity | right].
Qed.

Ltac kinds_apart :=
  let e := fresh "e" in
  let He := fresh "He" in
  intros e He; destruct e; try discriminate He; try reflexivity;
  repeat match goal with
         | c : component |- _ => destruct c
         | t : template |- _ => destruct t
         | l : llm_id |- _ => destruct l
         end;
  try discriminate He; reflexivity.

(* ===================================================================== *)
(** ** More on the description file and on stripped replies *)
(* ===================================================================== *)

Section Stripping.

Lemma lstrip_head s c : hd_error (lstrip s) = Some c -> isspace c = false.
Proof.
  induction s as [|a s IH]; simpl; [discriminate|].
  destruct (isspace a) eqn:Ha; [exact IH|].
  simpl. intros H. injection H as <-. exact Ha.
Qed.

Lemma lstrip_fixed s :
  (forall c, hd_error s = Some c -> isspace c = false) -> lstrip s = s.
Proof.
  destruct s as [|a s]; [reflexivity|]. intros H. simpl.
  now rewrite (H a eq_refl).
Qed.

Lemma lstrip_idem s : lstrip (lstrip s) = lstrip s.
Proof. apply lstrip_fixed. intros c. apply lstrip_head. Qed.

Lemma lstrip_snoc l c :
  isspace c = false -> exists x, lstrip (l ++ [c]) = x ++ [c].
Proof.
  intros Hc. induction l as [|a l IH]; simpl.
  - rewrite Hc. now exists [].
  - destruct (isspace a); [exact IH|]. now exists (a :: l).
Qed.

Lemma rstrip_head c t :
  isspace c = false -> exists y, rstrip (c :: t) = c :: y.
Proof.
  intros Hc. unfold rstrip. simpl.
  destruct (lstrip_snoc (rev t) c Hc) as (x & ->).
  exists (rev x). now rewrite rev_app_distr.
Qed.

Lemma rstrip_idem u : rstrip (rstrip u) = rstrip u.
Proof. unfold rstrip. now rewrite rev_involutive, lstrip_idem. Qed.

Lemma strip_head s c : hd_error (strip s) = Some c -> isspace c = false.
Proof.
  unfold strip. destruct (lstrip s) as [|a t] eqn:Hs; [discriminate|].
  assert (Ha : isspace a = false) by (apply (lstrip_head s); now rewrite Hs).
  destruct (rstrip_head a t Ha) as (y & ->). simpl.
  intros H. now injection H as <-.
Qed.

Lemma strip_last s c : hd_error (rev (strip s)) = Some c -> isspace c = false.
Proof.
  unfold strip, rstrip. rewrite rev_involutive. apply lstrip_head.
Qed.

Lemma strip_idem s : strip (strip s) = strip s.
Proof.
  unfold strip at 1. rewrite (lstrip_fixed (strip s) (strip_head s)).
  unfold strip. apply rstrip_idem.
Qed.

End Stripping.

Section FileAndReplies.

Variable E : Env.

Lemma universal_newlines_app_no_cr a b :
  no_cr a = true -> universal_newlines (a ++ b) = a ++ universal_newlines b.
Proof.
  induction a as [|c a IH]; [reflexivity|]. intros H.
  unfold no_cr in H. cbn [forallb] in H.
  apply andb_true_iff in H as [Hc Ha]. apply negb_true_iff in Hc.
  cbn [app]. rewrite (universal_newlines_other _ _ Hc). now rewrite (IH Ha).
Qed.

(** X1.  Whatever was saved fills the cache: right after
    [save_descriptions], a call of [describe_and_save_all] asks no model
    and returns what reading the whole file gives, which is never empty,
    even when the saved text is: what was there, the saved text and the
    separator, character for character when neither of the first two holds
    a carriage return. *)
Theorem save_then_describe_hits (descriptions database_schema : str) w :
  let saved := snd (save_descriptions E descriptions w) in
  describe_and_save_all E database_schema saved
  = (Ok (universal_newlines (file_text saved)),
     emit (ECall CDescriber [("database_schema"%string, VStr database_schema)])
          saved) /\
  file_text saved
  = file_text w ++ written E descriptions ++ written E separator /\
  universal_newlines (file_text saved) <> [] /\
  (no_cr (file_text w) = true -> no_cr descriptions = true ->
   universal_newlines (file_text saved)
   = file_text w ++ descriptions ++ separator).
Proof.
  intros saved.
  assert (Hfile : file_text saved
                  = file_text w ++ written E descriptions ++ written E separator)
    by reflexivity.
  assert (Hne : file_text saved <> [])
    by (rewrite Hfile, app_assoc; apply written_separator_not_nil).
  split; [now apply describe_hit|]. split; [exact Hfile|]. split.
  - intros H. apply (proj1 (universal_newlines_nil _)) in H. contradiction.
  - intros Hw Hd. rewrite Hfile, <- written_app.
    rewrite (universal_newlines_app_no_cr _ _ Hw).
    change (universal_newlines (written E (descriptions ++ separator)))
      with (read_back E (descriptions ++ separator)).
    rewrite read_back_no_cr; [reflexivity|].
    unfold no_cr. rewrite forallb_app. fold (no_cr descriptions).
    now rewrite Hd.
Qed.

(** X2.  What [generate_description] and [get_non_serious_response]
    return is stripped: stripping it again changes nothing, and neither its
    first nor its last character is white space. *)
Theorem replies_are_stripped :
  forall text,
    (exists s w w', generate_description E s w = (Ok text, w')) \/
    (exists q w w', get_non_serious_response E q w = (Ok text, w')) ->
    strip text = text /\
    (forall c, hd_error text = Some c -> isspace c = false) /\
    (forall c, hd_error (rev text) = Some c -> isspace c = false).
Proof.
  intros text H.
  assert (Hs : exists content, text = strip content).
  { destruct H as [(s & w & w' & H)|(q & w & w' & H)].
    - unfold generate_description, bind, render, invoke, ret in H.
      destruct (format_prompt E _ _); [|discriminate].
      destruct (llm_invoke E LDescriber _ _) as [content|]; [|discriminate].
      injection H as <- _. now exists content.
    - unfold get_non_serious_response, bind, log_event, render, invoke, ret in H.
      destruct (format_prompt E _ _); [|discriminate].
      destruct (llm_invoke E LNonSerious _ _) as [content|]; [|discriminate].
      injection H as <- _. now exists content. }
  destruct Hs as (content & ->).
  split; [apply strip_idem|]. split; [apply strip_head|apply strip_last].
Qed.

End FileAndReplies.

(* ===================================================================== *)
(** ** The sidebar, the rendering of the log, an idle execution *)
(* ===================================================================== *)

Section Script_runs.

Variable E : Env.

(** X3.  [sidebar] never raises and never touches the log or the
    description file.  Without a click it does nothing.  With a click it
    connects once: on success the new handle is stored and the success
    notice shown; on failure the session's handle stays what it was and the
    exception's text is shown after ["Failed to connect: "]. *)
Theorem sidebar_connects_or_keeps_the_handle clicked w :
  exists w',
    sidebar E clicked w = (Ok tt, w') /\
    ss_chat_history w' = ss_chat_history w /\
    store w' = store w /\
    (clicked = false -> w' = w) /\
    (clicked = true ->
     match from_uri E (tick w) with
     | Ok h =>
         ss_db w' = Some (Some h) /\
         trace w' = [ESuccess (lit "Connected to the database!"); EConnect]
                    ++ trace w
     | Raise e =>
         ss_db w' = ss_db w /\
         trace w' = [EError (lit "Failed to connect: " ++ exn_text e); EConnect]
                    ++ trace w
     end).
Proof.
  destruct clicked.
  - unfold sidebar, try_except, connect, set_db, st_success, st_error,
      log_event, bind.
    destruct (from_uri E (tick w)) as [h|e]; eexists;
      (split; [reflexivity|]); cbn [ss_chat_history ss_db store trace emit];
      repeat split; try discriminate; reflexivity.
  - exists w. repeat split; try reflexivity. discriminate.
Qed.

Lemma display_messages_trace l : forall w,
  display_messages l w
  = (Ok tt,
     mkWorld (ss_chat_history w) (ss_db w) (store w)
             (rev (map (fun m => EMarkdown (content_of m)) l) ++ trace w)).
Proof.
  induction l as [|m l IH]; intros w.
  - destruct w; reflexivity.
  - assert (Hstep : display_messages (m :: l) w
                    = display_messages l (emit (EMarkdown (content_of m)) w))
      by (destruct m; reflexivity).
    rewrite Hstep, IH. cbn [emit ss_chat_history ss_db store trace map rev].
    now rewrite <- app_assoc.
Qed.

Lemma display_chat_history_run w :
  match ss_chat_history w with
  | Some log =>
      display_chat_history w
      = (Ok tt,
         mkWorld (Some log) (ss_db w) (store w)
                 (rev (map (fun m => EMarkdown (content_of m)) log) ++ trace w))
  | None => display_chat_history w = (Raise attribute_error, w)
  end.
Proof.
  unfold display_chat_history, bind, get_chat_history.
  destruct (ss_chat_history w) as [log|] eqn:Hlog; [|reflexivity].
  now rewrite display_messages_trace, Hlog.
Qed.

(** X4.  [display_chat_history] renders every message of the log, oldest
    first, and changes nothing else; when the session has no log it raises
    and renders nothing. *)
Theorem display_chat_history_renders_the_log w :
  match ss_chat_history w with
  | Some log =>
      display_chat_history w
      = (Ok tt,
         mkWorld (Some log) (ss_db w) (store w)
                 (rev (map (fun m => EMarkdown (content_of m)) log) ++ trace w))
  | None => display_chat_history w = (Raise attribute_error, w)
  end.
Proof.
  unfold display_chat_history, bind, get_chat_history.
  destruct (ss_chat_history w) as [log|] eqn:Hlog; [|reflexivity].
  now rewrite display_messages_trace, Hlog.
Qed.

(** X5.  An execution of the script with no click and nothing submitted
    (or the empty string) returns, leaves the handle and the description
    file alone, makes the log what [init_session_state] makes it, only
    renders that log, and run again changes the session no further. *)
Theorem idle_execution user_query w :
  match user_query with Some q => truthy q = false | None => True end ->
  exists w',
    main E false user_query w = (Ok tt, w') /\
    ss_chat_history w' = Some (initial_log w) /\
    ss_db w' = Some match ss_db w with Some d => d | None => None end /\
    store w' = store w /\
    trace w' = rev (map (fun m => EMarkdown (content_of m)) (initial_log w))
               ++ trace w /\
    ss_chat_history (snd (main E false user_query w')) = ss_chat_history w' /\
    ss_db (snd (main E false user_query w')) = ss_db w'.
Proof.
  intros Hq.
  assert (Hidle : forall v, handle_user_query E user_query v = (Ok tt, v)).
  { intros v. destruct user_query as [q|]; [|reflexivity].
    unfold handle_user_query. now rewrite Hq. }
  assert (Hmain : forall v,
    main E false user_query v
    = (Ok tt,
       mkWorld (Some (initial_log v))
               (Some match ss_db v with Some d => d | None => None end)
               (store v)
               (rev (map (fun m => EMarkdown (content_of m)) (initial_log v))
                ++ trace v))).
  { intros v. unfold main, run, init_session_state, sidebar, initial_log.
    unfold bind at 1 2 3. unfold ret at 1.
    pose proof (display_chat_history_run
                  (mkWorld
                     match ss_chat_history v with
                     | Some l => Some l
                     | None => Some [AIMessage greeting]
                     end
                     match ss_db v with
                     | Some d => Some d
                     | None => Some None
                     end (store v) (trace v))) as Hd.
    cbn [ss_chat_history ss_db store trace] in Hd.
    destruct (ss_chat_history v) as [l|], (ss_db v) as [d|];
      rewrite Hd, Hidle; reflexivity. }
  eexists. split; [apply Hmain|]. cbn [ss_chat_history ss_db store trace].
  repeat split; rewrite Hmain; reflexivity.
Qed.

End Script_runs.

(* ===================================================================== *)
(** ** More on one turn *)
(* ===================================================================== *)

Section Turn_more.

Variable E : Env.

(** X6.  Outside the pipeline nothing is caught.  When the classifier
    raises, or when the question is classified ["serious"] and the
    database's schema dump raises, the turn raises that exception; the
    question stays in the log without a reply, and neither the verifier,
    the responder nor the pipeline is entered. *)
Theorem unguarded_failures_propagate q w log h e :
  truthy q = true ->
  ss_chat_history w = Some log ->
  ss_db w = Some (Some h) ->
  (forall w1,
     classify_question E q (received q w) = (Raise e, w1) ->
     handle_user_query E (Some q) w = (Raise e, w1) /\
     ss_chat_history w1 = Some (log ++ [HumanMessage q]) /\
     exists events,
       trace w1 = events ++ trace w /\
       count (is_call CVerifier) events = 0 /\
       count (is_call CNonSerious) events = 0 /\
       count (is_call CPipeline) events = 0) /\
  (forall w1 w2,
     classify_question E q (received q w) = (Ok (lit "serious"), w1) ->
     table_info E h w1 = (Raise e, w2) ->
     handle_user_query E (Some q) w = (Raise e, w2) /\
     ss_chat_history w2 = Some (log ++ [HumanMessage q]) /\
     exists events,
       trace w2 = events ++ trace w /\
       count (is_call CVerifier) events = 0 /\
       count (is_call CNonSerious) events = 0 /\
       count (is_call CPipeline) events = 0).
Proof.
  intros Hq Hlog Hdb.
  assert (Hl : ss_chat_history (received q w) = Some (log ++ [HumanMessage q]))
    by now rewrite (received_eq q w Hlog).
  assert (Htr : trace (received q w) = EMarkdown q :: trace w)
    by now rewrite (received_eq q w Hlog).
  split.
  - intros w1 Hc.
    rewrite (handle_user_query_route E q w Hq Hlog Hdb). unfold route.
    rewrite (bind_raise _ _ _ Hc). split; [reflexivity|].
    destruct (quiet_none _ (classify_question_quiet E q) Hc)
      as (Hh1 & _ & ev1 & Ht1 & Hn1).
    split; [congruence|].
    exists (ev1 ++ [EMarkdown q]).
    split; [now rewrite Ht1, Htr, <- app_assoc|].
    rewrite !count_app, !count_cons, !count_nil.
    rewrite (Hn1 (is_call CVerifier) ltac:(kinds_apart)).
    rewrite (Hn1 (is_call CNonSerious) ltac:(kinds_apart)).
    rewrite (Hn1 (is_call CPipeline) ltac:(kinds_apart)).
    now repeat split.
  - intros w1 w2 Hc Ht.
    rewrite (handle_user_query_route E q w Hq Hlog Hdb). unfold route.
    rewrite (bind_ok _ _ _ Hc), str_eqb_refl, (bind_raise _ _ _ Ht).
    split; [reflexivity|].
    destruct (quiet_none _ (classify_question_quiet E q) Hc)
      as (Hh1 & _ & ev1 & Ht1 & Hn1).
    pose proof (table_info_world Ht) as ->.
    cbn [emit ss_chat_history trace].
    split; [congruence|].
    exists (ETableInfo h :: ev1 ++ [EMarkdown q]).
    split; [rewrite Ht1, Htr; simpl; now rewrite <- app_assoc|].
    rewrite !count_cons, !count_app, !count_cons, !count_nil.
    rewrite (Hn1 (is_call CVerifier) ltac:(kinds_apart)).
    rewrite (Hn1 (is_call CNonSerious) ltac:(kinds_apart)).
    rewrite (Hn1 (is_call CPipeline) ltac:(kinds_apart)).
    now repeat split.
Qed.

(** X7.  The verifier returns the model's reply stripped and lowercased,
    and a serious question reaches the pipeline exactly when that text is
    ["related"]; with any other text the turn ends with the rejection. *)
Theorem verifier_normalises_and_routes
    q w log h w1 schema_info w2 descriptions w3 prompt_text content :
  truthy q = true ->
  ss_chat_history w = Some log ->
  ss_db w = Some (Some h) ->
  classify_question E q (received q w) = (Ok (lit "serious"), w1) ->
  table_info E h w1 = (Ok schema_info, w2) ->
  describe_and_save_all E schema_info w2 = (Ok descriptions, w3) ->
  format_prompt E TVerify [("question"%string, VStr q);
                           ("schema_info"%string, VStr descriptions)]
  = Ok prompt_text ->
  llm_invoke E LVerifier (2 + tick w3) prompt_text = Ok content ->
  let relevance := py_lower E (strip content) in
  fst (verify_schema_relevance E q descriptions w3) = Ok relevance /\
  exists events,
    trace (snd (handle_user_query E (Some q) w)) = events ++ trace w /\
    (relevance = lit "related" <-> count (is_call CPipeline) events = 1) /\
    (relevance <> lit "related" ->
       handle_user_query E (Some q) w
       = (Ok tt,
          mkWorld (Some (log ++ [HumanMessage q; AIMessage rejection]))
                  (ss_db w) (store w3) (events ++ trace w))).
Proof.
  intros Hq Hlog Hdb Hc Ht Hd Hfmt Hllm relevance.
  assert (Hv : exists w4, verify_schema_relevance E q descriptions w3
                          = (Ok relevance, w4) /\ store w4 = store w3).
  { unfold verify_schema_relevance, bind, log_event, render, invoke, ret, tick.
    cbn [emit trace length]. rewrite Hfmt.
    change (S (S (length (trace w3)))) with (2 + tick w3).
    rewrite Hllm. eexists. split; reflexivity. }
  destruct Hv as (w4 & Hv & Hst). split; [now rewrite Hv|].
  assert (Hpath : serious_path E q h w relevance w4)
    by (exists w1, schema_info, w2, descriptions, w3; now repeat split).
  destruct (serious_path_events Hlog Hpath) as (Hh4 & Hd4 & ev & Htr & Hp).
  pose proof (count_disjoint before_verdict (is_call CPipeline) ev
                ltac:(kinds_apart) Hp) as Hnone.
  destruct (eqb relevance (lit "related")) eqn:Hrel.
  - apply str_eqb_eq in Hrel. rewrite Hrel in Hpath.
    rewrite (handle_user_query_related Hq Hlog Hdb Hpath).
    destruct (generate_response E q h (last_two (log ++ [HumanMessage q])) w4)
      as [r w5] eqn:Hg.
    destruct (generate_response_events E _ _ _ _ Hg)
      as ((text & ->) & Hh5 & _ & ev5 & Ht5 & _ & Hone & _).
    rewrite Hh4 in Hh5.
    rewrite (bind_ok _ _ _ Hg), (finish_turn text w5 Hh5). cbn [snd trace].
    exists (EMarkdown text :: ev5 ++ ev).
    split; [rewrite Ht5, Htr; simpl; now rewrite <- app_assoc|].
    rewrite count_cons, count_app, Hone, Hnone. cbn.
    split; [now split|]. intros H. now contradiction H.
  - apply str_eqb_neq in Hrel.
    rewrite (handle_user_query_not_related Hq Hlog Hdb Hpath Hrel).
    cbn [snd trace]. exists (EMarkdown rejection :: ev).
    split; [now rewrite Htr|].
    rewrite count_cons, Hnone. cbn.
    split; [split; [intros H; now contradiction H|discriminate]|].
    intros _. rewrite Hd4, Hdb, Hst, Htr. reflexivity.
Qed.

Lemma chain_reply h input w text w' :
  chain E h input w = (Ok text, w') ->
  exists n prompt_text, llm_invoke E LAnswer n prompt_text = Ok text.
Proof.
  unfold chain. unfold bind at 1.
  destruct (get_sql_chain E h input w) as [[query|] wq]; [|discriminate].
  unfold bind at 1. destruct (run_sql E h query wq) as [[response|] wr];
    [|discriminate].
  unfold bind at 1. destruct (render E TAnswer _ wr) as [[p|] wp];
    [|discriminate].
  unfold invoke. intros H. injection H as H _. now exists (tick wp), p.
Qed.

(** X8.  A turn that reaches the pipeline and in which no stage raises
    ends normally with the answer model's reply, as it came (it is not
    stripped), shown and appended as the AI message after the question. *)
Theorem answered_turn q w log h w4 text w5 :
  truthy q = true ->
  ss_chat_history w = Some log ->
  ss_db w = Some (Some h) ->
  serious_path E q h w (lit "related") w4 ->
  chain E h (chain_input q (last_two (log ++ [HumanMessage q])))
    (at_invoke q h (last_two (log ++ [HumanMessage q])) w4) = (Ok text, w5) ->
  handle_user_query E (Some q) w
  = (Ok tt,
     mkWorld (Some (log ++ [HumanMessage q; AIMessage text]))
             (ss_db w) (store w5) (EMarkdown text :: trace w5)) /\
  exists n prompt_text, llm_invoke E LAnswer n prompt_text = Ok text.
Proof.
  intros Hq Hlog Hdb Hpath Hchain.
  split; [|exact (chain_reply _ _ _ Hchain)].
  rewrite (handle_user_query_related Hq Hlog Hdb Hpath).
  destruct (generate_response_ok_events E _ _ _ _ Hchain) as (Hg & _).
  destruct (generate_response_quiet E _ _ _ _ Hg) as (Hh5 & Hd5 & _).
  destruct (serious_path_events Hlog Hpath) as (Hh4 & Hd4 & _).
  rewrite Hh4 in Hh5.
  rewrite (bind_ok _ _ _ Hg), (finish_turn text w5 Hh5).
  rewrite Hd5, Hd4, <- app_assoc. reflexivity.
Qed.

(** X9.  When a stage of the pipeline raises in a turn, the user sees the
    fixed message twice, once from [st.error] in the pipeline and once
    from [st.markdown] in the orchestrator, and nothing else after the
    failure: the text of the exception is shown nowhere. *)
Theorem failure_message_is_shown_twice q w log h w4 e w5 :
  truthy q = true ->
  ss_chat_history w = Some log ->
  ss_db w = Some (Some h) ->
  serious_path E q h w (lit "related") w4 ->
  chain E h (chain_input q (last_two (log ++ [HumanMessage q])))
    (at_invoke q h (last_two (log ++ [HumanMessage q])) w4) = (Raise e, w5) ->
  trace (snd (handle_user_query E (Some q) w))
  = EMarkdown error_message :: EError error_message :: trace w5.
Proof.
  intros Hq Hlog Hdb Hpath Hraise.
  rewrite (handle_user_query_related Hq Hlog Hdb Hpath).
  pose proof (generate_response_raise E _ _ _ _ Hraise) as Hg.
  destruct (generate_response_quiet E _ _ _ _ Hg) as (Hh & _).
  destruct (serious_path_events Hlog Hpath) as (Hh4 & _).
  rewrite Hh4 in Hh.
  now rewrite (bind_ok _ _ _ Hg), (finish_turn error_message _ Hh).
Qed.

End Turn_more.

(* ===================================================================== *)
(** ** The log over any session *)
(* ===================================================================== *)

Section Any_session.

Variable E : Env.

Lemma sidebar_run clicked w :
  exists w',
    sidebar E clicked w = (Ok tt, w') /\
    ss_chat_history w' = ss_chat_history w /\
    (forall d, ss_db w = Some d -> exists d', ss_db w' = Some d').
Proof.
  destruct clicked.
  - unfold sidebar, try_except, connect, set_db, st_success, st_error,
      log_event, bind.
    destruct (from_uri E (tick w)) as [h|e]; eexists;
      (split; [reflexivity|]); cbn [ss_chat_history ss_db];
      (split; [reflexivity|]); intros d Hd; eexists;
      first [reflexivity | exact Hd].
  - exists w. repeat split. intros d Hd. now exists d.
Qed.

(** What a call of [handle_user_query] does to the log and the handle. *)
Lemma handle_user_query_outcome user_query w log d r w' :
  ss_chat_history w = Some log ->
  ss_db w = Some d ->
  handle_user_query E user_query w = (r, w') ->
  ss_db w' = Some d /\
  exists replies,
    length replies = length (submitted [(false, user_query)]) /\
    ss_chat_history w'
    = Some (log ++ transcript (submitted [(false, user_query)]) replies).
Proof.
  intros Hlog Hdb Hrun. cbn [submitted].
  destruct user_query as [q|].
  2:{ injection Hrun as <- <-. split; [exact Hdb|]. exists [].
      split; [reflexivity|]. now rewrite app_nil_r. }
  destruct (truthy q) eqn:Hq.
  2:{ unfold handle_user_query in Hrun. rewrite Hq in Hrun.
      injection Hrun as <- <-. split; [exact Hdb|]. exists [].
      split; [reflexivity|]. now rewrite app_nil_r. }
  destruct d as [h|].
  - rewrite (handle_user_query_route E q w Hq Hlog Hdb) in Hrun.
    assert (Hl : ss_chat_history (received q w) = Some (log ++ [HumanMessage q]))
      by now rewrite (received_eq q w Hlog).
    assert (Hd : ss_db (received q w) = Some (Some h))
      by now rewrite (received_eq q w Hlog).
    edestruct route_outcome as (Hdb' & Hout); [exact Hl|exact Hrun|].
    split; [congruence|].
    destruct r as [u|e].
    + destruct Hout as (reply & Ha). exists [Some reply].
      split; [reflexivity|]. now rewrite Ha, <- app_assoc.
    + exists [None]. split; [reflexivity|]. exact Hout.
  - unfold handle_user_query in Hrun. rewrite Hq in Hrun.
    unfold bind at 1 in Hrun. rewrite (append_message_ok _ w Hlog) in Hrun.
    unfold bind at 1 in Hrun. unfold st_markdown at 1, log_event at 1 in Hrun.
    unfold bind at 1 in Hrun. unfold get_db in Hrun.
    cbn [ss_db emit] in Hrun. rewrite Hdb in Hrun.
    injection Hrun as <- <-. split; [reflexivity|]. exists [None].
    split; reflexivity.
Qed.

(** One execution of the script, whatever it is given and however it ends. *)
Lemma main_outcome clicked user_query w r w' :
  main E clicked user_query w = (r, w') ->
  (exists d, ss_db w' = Some d) /\
  exists replies,
    length replies = length (submitted [(clicked, user_query)]) /\
    ss_chat_history w'
    = Some (initial_log w ++ transcript (submitted [(clicked, user_query)]) replies).
Proof.
  intros Hrun.
  unfold main, run, init_session_state in Hrun.
  unfold bind at 1 in Hrun.
  set (w0 := mkWorld _ _ (store w) (trace w)) in Hrun.
  assert (Hlog0 : ss_chat_history w0 = Some (initial_log w))
    by (unfold w0, initial_log; cbn; now destruct (ss_chat_history w)).
  assert (Hdb0 : exists d, ss_db w0 = Some d)
    by (unfold w0; cbn; destruct (ss_db w); eauto).
  destruct Hdb0 as (d0 & Hdb0).
  destruct (sidebar_run clicked w0) as (w1 & Hside & Hh1 & Hd1).
  destruct (Hd1 d0 Hdb0) as (d1 & Hdb1).
  rewrite (bind_ok _ _ _ Hside) in Hrun.
  rewrite Hlog0 in Hh1.
  unfold display_chat_history in Hrun. unfold bind at 1 in Hrun.
  rewrite (bind_ok _ _ _ (get_chat_history_ok w1 Hh1)) in Hrun.
  rewrite display_messages_trace in Hrun.
  eapply handle_user_query_outcome in Hrun;
    [|cbn [ss_chat_history]; exact Hh1|cbn [ss_db]; exact Hdb1].
  destruct Hrun as (Hdb' & replies & Hlen & Hfinal).
  split; [eauto|]. exists replies. split; assumption.
Qed.

Lemma transcript_app qs1 replies1 qs2 replies2 :
  length replies1 = length qs1 ->
  transcript (qs1 ++ qs2) (replies1 ++ replies2)
  = transcript qs1 replies1 ++ transcript qs2 replies2.
Proof.
  revert replies1.
  induction qs1 as [|q qs1 IH]; intros [|[a|] replies1] H; try discriminate;
    [reflexivity|idtac|idtac];
    cbn [transcript app]; rewrite IH by (cbn in H; lia); reflexivity.
Qed.

Lemma submitted_cons step rest :
  submitted (step :: rest) = submitted [step] ++ submitted rest.
Proof.
  destruct step as [c [q|]]; cbn [submitted]; [|reflexivity].
  destruct (truthy q); [reflexivity|reflexivity].
Qed.

(** X10.  Over any session (any clicks, any submissions, any failures of
    the model or the database) the log is what the first execution started
    from followed by every submitted non-empty question, in order, each
    directly followed by at most one AI message: nothing is ever removed,
    reordered or edited, and no AI message comes without its question. *)
Theorem session_log_is_a_transcript steps w :
  steps <> [] ->
  exists replies,
    length replies = length (submitted steps) /\
    ss_chat_history (session E steps w)
    = Some (initial_log w ++ transcript (submitted steps) replies).
Proof.
  assert (Hgen : forall steps w log,
            ss_chat_history w = Some log ->
            exists replies,
              length replies = length (submitted steps) /\
              ss_chat_history (session E steps w)
              = Some (log ++ transcript (submitted steps) replies)).
  { clear steps w. induction steps as [|[c i] steps IH]; intros w log Hlog.
    - exists []. split; [reflexivity|]. cbn. now rewrite app_nil_r.
    - cbn [session]. destruct (main E c i w) as [r w1] eqn:Hmain.
      destruct (main_outcome _ _ _ Hmain) as (_ & r1 & Hlen1 & Hlog1).
      unfold initial_log in Hlog1. rewrite Hlog in Hlog1. cbn [snd].
      destruct (IH w1 _ Hlog1) as (rs & Hlen & Hfinal).
      exists (r1 ++ rs). rewrite (submitted_cons (c, i) steps).
      split; [now rewrite !length_app, Hlen1, Hlen|].
      now rewrite Hfinal, transcript_app, app_assoc. }
  destruct steps as [|[c i] steps]; [intros H; now contradiction H|]. intros _.
  cbn [session]. destruct (main E c i w) as [r w1] eqn:Hmain.
  destruct (main_outcome _ _ _ Hmain) as (_ & r1 & Hlen1 & Hlog1). cbn [snd].
  destruct (Hgen steps w1 _ Hlog1) as (rs & Hlen & Hfinal).
  exists (r1 ++ rs). rewrite (submitted_cons (c, i) steps).
  split; [now rewrite !length_app, Hlen1, Hlen|].
  now rewrite Hfinal, transcript_app, app_assoc.
Qed.

End Any_session.

(* ===================================================================== *)
(** ** The description file over any session *)
(* ===================================================================== *)

Ltac walk H :=
  repeat (cbn [emit store trace ss_chat_history ss_db] in H;
          match type of H with
          | context [match ?x with _ => _ end] =>
              lazymatch x with
              | context [match _ with _ => _ end] => fail
              | _ => destruct x eqn:?
              end
          end);
  cbn [emit store trace ss_chat_history ss_db] in H;
  try discriminate H; injection H as ? ?; subst.

Ltac some_events n l :=
  first [ exists l; split; [reflexivity|]
        | lazymatch n with
          | S ?m => let l' := open_constr:((_ : event) :: l) in some_events m l'
          end ].

Section Cache_invariant.

Variable E : Env.

Lemma file_text_store w w' : store w' = store w -> file_text w' = file_text w.
Proof. unfold file_text. now intros ->. Qed.

Lemma cache_ok_refl w : cache_ok w w.
Proof. exists []. split; [reflexivity|]. left. now split. Qed.

Lemma cache_ok_trans w1 w2 w3 :
  cache_ok w1 w2 -> cache_ok w2 w3 -> cache_ok w1 w3.
Proof.
  intros (ev1 & Ht1 & H1) (ev2 & Ht2 & H2).
  exists (ev2 ++ ev1). split; [now rewrite Ht2, Ht1, app_assoc|].
  rewrite count_app.
  destruct H1 as [(Hs1 & Hc1)|(He1 & Hn1 & Hc1)],
           H2 as [(Hs2 & Hc2)|(He2 & Hn2 & Hc2)].
  - left. split; [congruence|lia].
  - right. rewrite (file_text_store _ _ Hs1) in He2. repeat split; [assumption..|lia].
  - right. rewrite <- (file_text_store _ _ Hs2) in Hn1.
    repeat split; [assumption..|lia].
  - contradiction.
Qed.

Lemma caching_ret {A} (a : A) : caching (ret a).
Proof. intros w r w' H. injection H as _ <-. apply cache_ok_refl. Qed.

Lemma caching_bind {A B} (m : M A) (f : A -> M B) :
  caching m -> (forall a, caching (f a)) -> caching (bind m f).
Proof.
  intros Hm Hf w r w' H. unfold bind in H.
  destruct (m w) as [[a|e] w1] eqn:Hrun.
  - eapply cache_ok_trans; [exact (Hm _ _ _ Hrun)|exact (Hf a _ _ _ H)].
  - injection H as _ <-. exact (Hm _ _ _ Hrun).
Qed.

Lemma caching_try {A} (m : M A) (k : exn -> M A) :
  caching m -> (forall e, caching (k e)) -> caching (try_except m k).
Proof.
  intros Hm Hk w r w' H. unfold try_except in H.
  destruct (m w) as [[a|e] w1] eqn:Hrun.
  - injection H as _ <-. exact (Hm _ _ _ Hrun).
  - eapply cache_ok_trans; [exact (Hm _ _ _ Hrun)|exact (Hk e _ _ _ H)].
Qed.

(** A computation that leaves the file alone. *)
Lemma caching_of_keeps {A} (m : M A) :
  (forall w r w', m w = (r, w') ->
     store w' = store w /\
     exists events, trace w' = events ++ trace w /\
                    count is_store_append events = 0) ->
  caching m.
Proof.
  intros Hm w r w' H. destruct (Hm _ _ _ H) as (Hs & ev & Ht & Hc).
  exists ev. split; [exact Ht|]. left. now split.
Qed.

Ltac keeps H :=
  walk H; (split; [reflexivity|]); cbn [emit trace]; some_events 4 (@nil event);
  reflexivity.

Lemma caching_log_event e : is_store_append e = false -> caching (log_event e).
Proof.
  intros He. apply caching_of_keeps. intros w r w' H. unfold log_event in H.
  injection H as _ <-. split; [reflexivity|]. exists [e].
  split; [reflexivity|]. now rewrite count_cons, He.
Qed.

Lemma caching_render t v : caching (render E t v).
Proof.
  apply caching_of_keeps. intros w r w' H. unfold render in H. keeps H.
Qed.

Lemma caching_invoke l p : caching (invoke E l p).
Proof.
  apply caching_of_keeps. intros w r w' H. unfold invoke in H. keeps H.
Qed.

Lemma caching_table_info h : caching (table_info E h).
Proof.
  apply caching_of_keeps. intros w r w' H. unfold table_info in H. keeps H.
Qed.

Lemma caching_run_sql h sql : caching (run_sql E h sql).
Proof.
  apply caching_of_keeps. intros w r w' H. unfold run_sql in H. keeps H.
Qed.

Lemma caching_connect : caching (connect E).
Proof.
  apply caching_of_keeps. intros w r w' H. unfold connect in H. keeps H.
Qed.

Lemma caching_get_chat_history : caching get_chat_history.
Proof.
  apply caching_of_keeps. intros w r w' H. unfold get_chat_history in H. keeps H.
Qed.

Lemma caching_append_message m : caching (append_message m).
Proof.
  apply caching_of_keeps. intros w r w' H. unfold append_message in H. keeps H.
Qed.

Lemma caching_get_db : caching get_db.
Proof.
  apply caching_of_keeps. intros w r w' H. unfold get_db in H. keeps H.
Qed.

Lemma caching_set_db d : caching (set_db d).
Proof.
  apply caching_of_keeps. intros w r w' H. unfold set_db in H. keeps H.
Qed.

Lemma caching_init_session_state : caching init_session_state.
Proof.
  apply caching_of_keeps. intros w r w' H. unfold init_session_state in H.
  injection H as _ <-. split; [reflexivity|]. now exists [].
Qed.

(** The one place that writes: only into an empty file, and what it
    writes is not empty. *)
Lemma caching_describe_and_save_all s : caching (describe_and_save_all E s).
Proof.
  intros w r w' H.
  destruct (nil_or_not (file_text w)) as [Hnil|Hne].
  - rewrite describe_miss in H by assumption.
    unfold generate_description, save_descriptions, bind, render, invoke, ret in H.
    walk H; cbn [emit trace].
    + some_events 4 (@nil event). right. split; [exact Hnil|].
      split; [|reflexivity].
      match goal with
      | |- context [strip ?c] => exact (saved_not_nil E (file_text w) (strip c))
      end.
    + some_events 4 (@nil event). left. now split.
    + some_events 4 (@nil event). left. now split.
  - rewrite describe_hit in H by assumption. injection H as _ <-.
    exists [ECall CDescriber [("database_schema"%string, VStr s)]].
    split; [reflexivity|]. left. now split.
Qed.

Ltac caching_step :=
  lazymatch goal with
  | |- caching (bind _ _) => apply caching_bind; [|intros ?]
  | |- caching (try_except _ _) => apply caching_try; [|intros ?]
  | |- caching (ret _) => apply caching_ret
  | |- caching (log_event _) => apply caching_log_event; reflexivity
  | |- caching (render _ _ _) => apply caching_render
  | |- caching (invoke _ _ _) => apply caching_invoke
  | |- caching (table_info _ _) => apply caching_table_info
  | |- caching (run_sql _ _ _) => apply caching_run_sql
  | |- caching (connect _) => apply caching_connect
  | |- caching get_chat_history => apply caching_get_chat_history
  | |- caching (append_message _) => apply caching_append_message
  | |- caching get_db => apply caching_get_db
  | |- caching (set_db _) => apply caching_set_db
  | |- caching init_session_state => apply caching_init_session_state
  | |- caching (describe_and_save_all _ _) => apply caching_describe_and_save_all
  | |- caching (if ?b then _ else _) => destruct b
  | |- caching (match ?x with _ => _ end) => destruct x
  end.

Ltac caching_auto := repeat caching_step.

Lemma caching_generate_response q h hist : caching (generate_response E q h hist).
Proof.
  unfold generate_response, chain, get_sql_chain, sleep, st_error.
  caching_auto.
Qed.

Lemma caching_handle_user_query user_query :
  caching (handle_user_query E user_query).
Proof.
  unfold handle_user_query, classify_question, verify_schema_relevance,
    get_non_serious_response, st_markdown.
  destruct user_query as [q|]; [|apply caching_ret].
  destruct (truthy q); [|apply caching_ret].
  caching_auto; apply caching_generate_response.
Qed.

Lemma caching_display_messages l : caching (display_messages l).
Proof.
  induction l as [|[c|c] l IH]; cbn [display_messages]; unfold st_markdown;
    caching_auto; exact IH.
Qed.

Lemma caching_main clicked user_query : caching (main E clicked user_query).
Proof.
  unfold main, run, sidebar, display_chat_history, st_success, st_error.
  caching_auto;
    first [apply caching_display_messages | apply caching_handle_user_query].
Qed.

Lemma session_cache_ok steps : forall w, cache_ok w (session E steps w).
Proof.
  induction steps as [|[c i] steps IH]; intros w; [apply cache_ok_refl|].
  cbn [session]. destruct (main E c i w) as [r w1] eqn:Hmain. cbn [snd].
  eapply cache_ok_trans; [eapply caching_main; exact Hmain|apply IH].
Qed.

(** X11.  Over any session the description file is written at most once.
    A file that holds text is never written and never changes; a write
    happens only into an empty or missing file and leaves it non-empty, so
    that no description is ever generated again. *)
Theorem description_written_at_most_once steps w :
  exists events,
    trace (session E steps w) = events ++ trace w /\
    count is_store_append events <= 1 /\
    (file_text w <> [] ->
       store (session E steps w) = store w /\
       count is_store_append events = 0) /\
    (count is_store_append events = 1 ->
       file_text w = [] /\ file_text (session E steps w) <> []).
Proof.
  destruct (session_cache_ok steps w) as (ev & Ht & [(Hs & Hc)|(He & Hn & Hc)]);
    exists ev; (split; [exact Ht|]).
  - split; [lia|]. split; [now intros _|]. intros H. lia.
  - split; [lia|]. split; [intros H; contradiction|]. now intros _.
Qed.

End Cache_invariant.

(* ===================================================================== *)
(** ** What one turn can cost *)
(* ===================================================================== *)

Section Budget.

Variable E : Env.

Lemma spends_refl w : spends 0 0 0 0 w w.
Proof. exists []. now repeat split. Qed.

Lemma spends_trans k1 s1 d1 t1 k2 s2 d2 t2 w1 w2 w3 :
  spends k1 s1 d1 t1 w1 w2 -> spends k2 s2 d2 t2 w2 w3 ->
  spends (k1 + k2) (s1 + s2) (d1 + d2) (t1 + t2) w1 w3.
Proof.
  intros (ev1 & Ht1 & ? & ? & ? & ?) (ev2 & Ht2 & ? & ? & ? & ?).
  exists (ev2 ++ ev1). split; [now rewrite Ht2, Ht1, app_assoc|].
  rewrite !count_app. repeat split; lia.
Qed.

Lemma spends_le k s d t k' s' d' t' w w' :
  spends k s d t w w' -> k <= k' -> s <= s' -> d <= d' -> t <= t' ->
  spends k' s' d' t' w w'.
Proof.
  intros (ev & Ht & ? & ? & ? & ?) ? ? ? ?. exists ev.
  repeat split; [exact Ht|lia..].
Qed.

Unset Implicit Arguments.

Ltac spent H :=
  walk H; cbn [emit trace]; some_events 6 (@nil event); cbn; repeat split; lia.

Lemma classify_question_spends q w r w' :
  classify_question E q w = (r, w') -> spends 1 0 0 0 w w'.
Proof.
  intros H.
  unfold classify_question, bind, log_event, render, invoke, ret in H. spent H.
Qed.

Lemma get_non_serious_response_spends q w r w' :
  get_non_serious_response E q w = (r, w') -> spends 1 0 0 0 w w'.
Proof.
  intros H.
  unfold get_non_serious_response, bind, log_event, render, invoke, ret in H.
  spent H.
Qed.

Lemma verify_schema_relevance_spends q s w r w' :
  verify_schema_relevance E q s w = (r, w') ->
  spends 1 0 0 0 w w' /\ store w' = store w.
Proof.
  intros H.
  unfold verify_schema_relevance, bind, log_event, render, invoke, ret in H.
  walk H; (split; [|reflexivity]); cbn [emit trace];
    some_events 6 (@nil event); cbn; repeat split; lia.
Qed.

Lemma table_info_spends h w r w' :
  table_info E h w = (r, w') -> spends 0 0 0 1 w w' /\ store w' = store w.
Proof.
  intros H. unfold table_info in H.
  walk H; (split; [|reflexivity]); cbn [emit trace];
    some_events 6 (@nil event); cbn; repeat split; lia.
Qed.

(** The describer asks its model at most once, and when it returns the
    file holds text. *)
Lemma describe_and_save_all_spends s w r w' :
  describe_and_save_all E s w = (r, w') ->
  spends 1 0 0 0 w w' /\ (forall d, r = Ok d -> file_text w' <> []).
Proof.
  intros H.
  destruct (nil_or_not (file_text w)) as [Hnil|Hne].
  - rewrite describe_miss in H by assumption.
    unfold generate_description, save_descriptions, bind, render, invoke, ret in H.
    walk H; (split; [cbn [emit trace]; some_events 6 (@nil event); cbn;
                     repeat split; lia|]); intros d Hd; try discriminate Hd.
    match goal with
    | |- context [strip ?c] => exact (saved_not_nil E (file_text w) (strip c))
    end.
  - rewrite describe_hit in H by assumption. injection H as <- <-.
    split; [|intros d _; exact Hne].
    exists [ECall CDescriber [("database_schema"%string, VStr s)]].
    cbn. repeat split; lia.
Qed.

(** With a description on file the pipeline asks two models at most. *)
Lemma generate_response_spends q h hist w r w' :
  file_text w <> [] ->
  generate_response E q h hist w = (r, w') -> spends 2 1 1 1 w w'.
Proof.
  intros Hne H.
  unfold generate_response, try_except, chain, get_sql_chain, table_info,
    run_sql, sleep, st_error, bind, log_event, render, invoke, ret in H.
  repeat (cbn [emit store trace ss_chat_history ss_db] in H;
          first
            [ rewrite describe_hit in H by exact Hne
            | match type of H with
              | context [match ?x with _ => _ end] =>
                  lazymatch x with
                  | context [match _ with _ => _ end] => fail
                  | _ => destruct x eqn:?
                  end
              end ]);
    cbn [emit store trace ss_chat_history ss_db] in H;
    try discriminate H; injection H as ? ?; subst;
    cbn [emit trace]; some_events 12 (@nil event); cbn; repeat split; lia.
Qed.

Lemma finish_spends text w r w' :
  bind (st_markdown text) (fun _ => append_message (AIMessage text)) w = (r, w') ->
  spends 0 0 0 0 w w'.
Proof.
  intros H. unfold bind, st_markdown, log_event, append_message in H. spent H.
Qed.

Lemma route_spends q h w r w' :
  route E q h w = (r, w') -> spends 5 1 1 2 w w'.
Proof.
  intros H. unfold route in H. unfold bind at 1 in H.
  destruct (classify_question E q w) as [[c|e] w1] eqn:Hc;
    pose proof (classify_question_spends _ _ _ _ Hc) as S1.
  2:{ injection H as _ <-. eapply spends_le; [exact S1|lia..]. }
  destruct (eqb c (lit "serious")).
  - unfold bind at 1 in H.
    destruct (table_info E h w1) as [[si|e] w2] eqn:Ht;
      destruct (table_info_spends _ _ _ _ Ht) as (S2 & Hs2);
      pose proof (spends_trans S1 S2) as S12.
    2:{ injection H as _ <-. eapply spends_le; [exact S12|lia..]. }
    unfold bind at 1 in H.
    destruct (describe_and_save_all E si w2) as [[d|e] w3] eqn:Hd;
      destruct (describe_and_save_all_spends _ _ _ _ Hd) as (S3 & Hfile);
      pose proof (spends_trans S12 S3) as S13.
    2:{ injection H as _ <-. eapply spends_le; [exact S13|lia..]. }
    unfold bind at 1 in H.
    destruct (verify_schema_relevance E q d w3) as [[rel|e] w4] eqn:Hv;
      destruct (verify_schema_relevance_spends _ _ _ _ _ Hv) as (S4 & Hs4);
      pose proof (spends_trans S13 S4) as S14.
    2:{ injection H as _ <-. eapply spends_le; [exact S14|lia..]. }
    destruct (eqb rel (lit "related")).
    + unfold bind at 1 in H. unfold get_chat_history at 1 in H.
      destruct (ss_chat_history w4) as [hist|].
      2:{ injection H as _ <-. eapply spends_le; [exact S14|lia..]. }
      unfold bind at 1 in H.
      destruct (generate_response E q h (last_two hist) w4) as [[text|e] w5] eqn:Hg.
      2:{ injection H as _ <-.
          assert (Hne : file_text w4 <> [])
            by (rewrite (file_text_store _ _ Hs4); now apply (Hfile d)).
          pose proof (spends_trans S14 (generate_response_spends _ _ _ _ _ _ Hne Hg)).
          eapply spends_le; [eassumption|lia..]. }
      assert (Hne : file_text w4 <> [])
        by (rewrite (file_text_store _ _ Hs4); now apply (Hfile d)).
      pose proof (spends_trans S14 (generate_response_spends _ _ _ _ _ _ Hne Hg)) as S15.
      pose proof (spends_trans S15 (finish_spends _ _ _ _ H)).
      eapply spends_le; [eassumption|lia..].
    + pose proof (spends_trans S14 (finish_spends _ _ _ _ H)).
      eapply spends_le; [eassumption|lia..].
  - unfold bind at 1 in H.
    destruct (get_non_serious_response E q w1) as [[text|e] w2] eqn:Hr;
      pose proof (spends_trans S1 (get_non_serious_response_spends _ _ _ _ Hr)) as S12.
    2:{ injection H as _ <-. eapply spends_le; [exact S12|lia..]. }
    pose proof (spends_trans S12 (finish_spends _ _ _ _ H)).
    eapply spends_le; [eassumption|lia..].
Qed.

(** X12.  One call of [handle_user_query], on any input and from any
    state, asks the models at most five times (the description is
    generated at most once and then found on file by the pipeline), sleeps
    at most once, runs at most one query and dumps the schema at most
    twice. *)
Theorem turn_budget user_query w :
  exists events,
    trace (snd (handle_user_query E user_query w)) = events ++ trace w /\
    count is_any_llm events <= 5 /\
    count is_sleep events <= 1 /\
    count is_db_run events <= 1 /\
    count is_table_info events <= 2.
Proof.
  change (spends 5 1 1 2 w (snd (handle_user_query E user_query w))).
  destruct (handle_user_query E user_query w) as [r w'] eqn:H. cbn [snd].
  destruct user_query as [q|].
  2:{ injection H as _ <-. eapply spends_le; [apply spends_refl|lia..]. }
  unfold handle_user_query in H.
  destruct (truthy q).
  2:{ injection H as _ <-. eapply spends_le; [apply spends_refl|lia..]. }
  unfold bind at 1 in H. unfold append_message at 1 in H.
  destruct (ss_chat_history w) as [log|].
  2:{ injection H as _ <-. eapply spends_le; [apply spends_refl|lia..]. }
  unfold bind at 1 in H. unfold st_markdown at 1, log_event at 1 in H.
  unfold bind at 1 in H. unfold get_db at 1 in H. cbn [ss_db] in H.
  match type of H with
  | context [emit (EMarkdown q) ?x] => set (w0 := emit (EMarkdown q) x) in H
  end.
  assert (S0 : spends 0 0 0 0 w w0)
    by (exists [EMarkdown q]; cbn; repeat split; lia).
  destruct (ss_db w) as [[h|]|].
  - pose proof (spends_trans S0 (route_spends q h w0 r w' H)).
    eapply spends_le; [eassumption|lia..].
  - injection H as _ <-. eapply spends_le; [exact S0|lia..].
  - injection H as _ <-. eapply spends_le; [exact S0|lia..].
Qed.

End Budget.

Set Implicit Arguments.

(* ===================================================================== *)
(** ** The pipeline against a description on file *)
(* ===================================================================== *)

Section Stale_description.

Variable E : Env.

(** X13.  With a description on file, a run of the pipeline changes
    neither the log, the handle nor the file, and every prompt it formats
    is made of these variables only: for the SQL template the question, the
    history and, as schema, what reading the file gives; for the answer
    template the question, the history, a reply of the SQL model, the
    function [get_schema] and what [db.run] returned for that reply.  What
    [db.get_table_info] returned in that run is in none of them. *)
Theorem pipeline_uses_the_description_on_file q h hist w :
  file_text w <> [] ->
  exists events,
    trace (snd (generate_response E q h hist w)) = events ++ trace w /\
    ss_chat_history (snd (generate_response E q h hist w)) = ss_chat_history w /\
    ss_db (snd (generate_response E q h hist w)) = ss_db w /\
    store (snd (generate_response E q h hist w)) = store w /\
    (forall t v, In (EPrompt t v) events ->
       (t = TSql /\
        v = chain_input q hist
            ++ [("schema"%string, VStr (universal_newlines (file_text w)))]) \/
       (t = TAnswer /\
        exists query response n m prompt_text,
          v = chain_input q hist
              ++ [("query"%string, VStr query)]
              ++ [("schema"%string, VFun "get_schema");
                  ("response"%string, VStr response)] /\
          llm_invoke E LSql n prompt_text = Ok query /\
          db_run E h m query = Ok response)).
Proof.
  intros Hne.
  destruct (generate_response E q h hist w) as [r w'] eqn:H. cbn [snd].
  unfold generate_response, try_except, chain, get_sql_chain, table_info,
    run_sql, sleep, st_error, bind, log_event, render, invoke, ret in H.
  repeat (cbn [emit store trace ss_chat_history ss_db] in H;
          first
            [ rewrite describe_hit in H by exact Hne
            | match type of H with
              | context [match ?x with _ => _ end] =>
                  lazymatch x with
                  | context [match _ with _ => _ end] => fail
                  | _ => destruct x eqn:?
                  end
              end ]);
    cbn [emit store trace ss_chat_history ss_db] in H;
    try discriminate H; injection H as ? ?; subst;
    cbn [emit trace ss_chat_history ss_db store];
    some_events 12 (@nil event);
    (split; [reflexivity|]); (split; [reflexivity|]); (split; [reflexivity|]);
    intros t v Hin; cbn [In] in Hin;
    repeat (destruct Hin as [Hin|Hin]; try discriminate Hin);
    try contradiction;
    injection Hin as <- <-;
    first [ left; split; reflexivity
          | right; split; [reflexivity|];
            do 5 eexists; split; [reflexivity|]; split; eassumption ].
Qed.

End Stale_description.

(* ===================================================================== *)
(** ** These theorems at work on the scripted environment *)
(* ===================================================================== *)

Lemma save_then_describe_hits_witness :
  universal_newlines
    (file_text (snd (save_descriptions Outage.on_windows []
                       (Script.session None None))))
  = file_text (Script.session None None) ++ [] ++ separator.
Proof.
  apply (proj2 (proj2 (proj2 (@save_then_describe_hits Outage.on_windows []
                                Script.schema (Script.session None None)))));
    reflexivity.
Defined.

Lemma replies_are_stripped_witness :
  strip Script.description = Script.description /\
  (forall c, hd_error Script.description = Some c -> isspace c = false) /\
  (forall c, hd_error (rev Script.description) = Some c -> isspace c = false).
Proof.
  apply (@replies_are_stripped Script.answers Script.description).
  left. exists Script.schema, (Script.session None None),
    (snd (generate_description Script.answers Script.schema
            (Script.session None None))).
  by_eval.
Defined.

Lemma sidebar_connects_or_keeps_the_handle_witness :
  exists w',
    sidebar Script.answers true Script.connected = (Ok tt, w') /\
    ss_db w' = Some (Some 1).
Proof.
  destruct (@sidebar_connects_or_keeps_the_handle Script.answers true
              Script.connected) as (w' & Hrun & _ & _ & _ & Hclick).
  exists w'. split; [exact Hrun|].
  specialize (Hclick eq_refl). cbn in Hclick. now destruct Hclick as (-> & _).
Defined.

Lemma idle_execution_witness :
  exists w',
    main Script.answers false None (Script.session None None) = (Ok tt, w') /\
    ss_chat_history w' = Some [AIMessage greeting].
Proof.
  destruct (@idle_execution Script.answers None (Script.session None None) I)
    as (w' & Hrun & Hlog & _).
  exists w'. split; [exact Hrun|exact Hlog].
Defined.

Lemma unguarded_failures_propagate_witness :
  handle_user_query Outage.classifier_down (Some Script.question) Script.connected
  = (Raise Outage.quota,
     Script.classified Outage.classifier_down Script.question Script.connected).
Proof.
  apply (proj1 (@unguarded_failures_propagate Outage.classifier_down
                  Script.question Script.connected [AIMessage greeting] 1
                  Outage.quota ltac:(by_eval) ltac:(by_eval) ltac:(by_eval))).
  by_eval.
Defined.

Lemma verifier_normalises_and_routes_witness :
  fst (verify_schema_relevance Script.unrelated Script.question Script.description
         (Script.described Script.unrelated Script.question Script.connected))
  = Ok (lit "not related").
Proof.
  apply (@verifier_normalises_and_routes Script.unrelated Script.question
           Script.connected [AIMessage greeting] 1
           (Script.classified Script.unrelated Script.question Script.connected)
           Script.schema
           (Script.dumped Script.unrelated Script.question Script.connected)
           Script.description
           (Script.described Script.unrelated Script.question Script.connected)
           (Script.prompt_text TVerify) (lit "Not related")); by_eval.
Defined.

Lemma answered_turn_witness :
  fst (handle_user_query Script.answers (Some Script.question) Script.connected)
  = Ok tt /\
  ss_chat_history
    (snd (handle_user_query Script.answers (Some Script.question) Script.connected))
  = Some ([AIMessage greeting]
          ++ [HumanMessage Script.question;
              AIMessage (lit "There are 296 employees.")]).
Proof.
  destruct (@answered_turn Script.answers Script.question Script.connected
              [AIMessage greeting] 1
              (Script.verdict Script.answers Script.question Script.connected)
              (lit "There are 296 employees.")
              (snd (chain Script.answers 1
                      (chain_input Script.question
                         (last_two ([AIMessage greeting]
                                    ++ [HumanMessage Script.question])))
                      (at_invoke Script.question 1
                         (last_two ([AIMessage greeting]
                                    ++ [HumanMessage Script.question]))
                         (Script.verdict Script.answers Script.question
                            Script.connected)))))
    as (Hrun & _).
  - by_eval.
  - by_eval.
  - by_eval.
  - apply script_serious_path; by_eval.
  - by_eval.
  - rewrite Hrun. split; reflexivity.
Defined.

Lemma failure_message_is_shown_twice_witness :
  exists before,
    trace (snd (handle_user_query Script.query_fails (Some Script.question)
                  Script.connected))
    = EMarkdown error_message :: EError error_message :: before.
Proof.
  eexists.
  apply (@failure_message_is_shown_twice Script.query_fails Script.question
           Script.connected [AIMessage greeting] 1
           (Script.verdict Script.query_fails Script.question Script.connected)
           (Exception (lit "Table 'dimemployee' doesn't exist"))
           (snd (chain Script.query_fails 1
                   (chain_input Script.question
                      (last_two ([AIMessage greeting]
                                 ++ [HumanMessage Script.question])))
                   (at_invoke Script.question 1
                      (last_two ([AIMessage greeting]
                                 ++ [HumanMessage Script.question]))
                      (Script.verdict Script.query_fails Script.question
                         Script.connected))))).
  - by_eval.
  - by_eval.
  - by_eval.
  - apply script_serious_path; by_eval.
  - by_eval.
Defined.

Lemma session_log_is_a_transcript_witness :
  exists replies,
    length replies
    = length (submitted [(true, None); (false, Some Script.joke);
                         (false, Some []); (false, Some Script.question)]) /\
    ss_chat_history
      (session Outage.classifier_down
         [(true, None); (false, Some Script.joke);
          (false, Some []); (false, Some Script.question)]
         (Script.session None None))
    = Some (initial_log (Script.session None None)
            ++ transcript
                 (submitted [(true, None); (false, Some Script.joke);
                             (false, Some []); (false, Some Script.question)])
                 replies).
Proof.
  apply (@session_log_is_a_transcript Outage.classifier_down
           [(true, None); (false, Some Script.joke);
            (false, Some []); (false, Some Script.question)]
           (Script.session None None)).
  discriminate.
Defined.

Lemma description_written_at_most_once_witness :
  store (session Script.answers
           [(false, Some Script.question); (false, Some Script.joke)]
           Script.connected)
  = store Script.connected.
Proof.
  destruct (@description_written_at_most_once Script.answers
              [(false, Some Script.question); (false, Some Script.joke)]
              Script.connected) as (events & _ & _ & Hkeep & _).
  apply Hkeep. eval_neq.
Defined.

Lemma pipeline_uses_the_description_on_file_witness :
  exists events,
    trace (snd (generate_response Script.answers Script.question 1
                  [HumanMessage Script.question] Script.connected))
    = events ++ trace Script.connected /\
    store (snd (generate_response Script.answers Script.question 1
                  [HumanMessage Script.question] Script.connected))
    = store Script.connected.
Proof.
  destruct (@pipeline_uses_the_description_on_file Script.answers Script.question
              1 [HumanMessage Script.question] Script.connected)
    as (events & Ht & _ & _ & Hs & _).
  - eval_neq.
  - exists events. split; [exact Ht|exact Hs].
Defined.
